(** * Maths-V2: the session and quiz controller, embedded and verified

    The development follows the TypeScript sources:
    - [types.ts]                         the shared records and enums;
    - [services/quizService.ts]          the question generator;
    - [context/AppContext.tsx]           the controller (React context provider);
    - [components/screens/QuizScreen.tsx] the timed quiz screen;
    - [components/screens/AdminDashboard.tsx] the delete-button gate.

    Conventions of the embedding.
    - A JavaScript [number] that the code only ever builds from integers
      (operands, answers, stages, [Date.now()] milliseconds) is a [Z]; a
      number obtained by division or from [Math.random()] is a rational [Q]
      (the idealised value, without binary rounding).
    - Strings are [string] holding the UTF-8 bytes of the source literal.
    - [T | null] and optional fields are [option T].
    - JavaScript objects used as dictionaries are [gmap string _]: what
      is read under a key is modelled, the order in which the keys are
      enumerated is not.
    - A callback that outlives the render which made it takes what it
      captured from that render as an explicit argument
      ([QuizScreen.NextQuestion], [AppContext.finishQuiz_callback]).
    - Remote calls to the hosted backend are requests answered by an
      arbitrary stateful collaborator, a parameter of the controller. *)

From Stdlib Require Import ZArith QArith Qround Lia String Ascii List.
From Stdlib Require Import DecimalString DecimalZ DecimalPos Lqa.
From stdpp Require Import base option list gmap strings.

Local Open Scope string_scope.
Local Open Scope Z_scope.

(** ** Shared types (types.ts) *)

Module Types.

Inductive Role := admin | teacher | student | parent.

(** A [User] object as it exists at run time.  Objects built from a
    [profiles] row carry the row's [child_id] column and no [childId]
    property; rows cast by [data as User[]] carry no [email] either. *)
Record User := {
  user_id : string;
  user_name : string;
  user_email : option string;
  user_role : Role;
  user_childId : option string;
  user_child_id : option string
}.

Inductive Operation := addition | subtraction | multiplication.

Record QuizSettings := {
  operation : Operation;
  stage : Z;
  timer : Z
}.

Record Question := {
  text : string;
  answer : Z
}.

(** The value of [parseInt]: an integer or [NaN]. *)
Inductive number := NaN | Num (z : Z).

Record QuizResult := {
  question : Question;
  userAnswer : option number;
  isCorrect : bool;
  timeTaken : Q
}.

Record QuizSummary := {
  settings : QuizSettings;
  results : list QuizResult;
  score : Q;
  totalTime : Q
}.

Inductive View := login_view | signUp_view | dashboard | selectQuiz | quiz | results_view.

Record UserData := {
  data_name : string;
  data_email : string;
  data_password : option string;
  data_role : Role;
  data_childId : option string
}.

#[export] Instance Role_eq_dec : EqDecision Role.
Proof. solve_decision. Defined.

#[export] Instance Operation_eq_dec : EqDecision Operation.
Proof. solve_decision. Defined.

#[export] Instance View_eq_dec : EqDecision View.
Proof. solve_decision. Defined.

End Types.
Export Types.

(** Template-literal interpolation [`${n}`] of an integer-valued number. *)
Definition show (n : Z) : string := NilEmpty.string_of_int (Z.to_int n).

(** ** The question generator (services/quizService.ts) *)

Module QuizService.

(** [Math.floor(Math.random() * (max - min + 1)) + min]; the draw of
    [Math.random()] is the argument [r].  The product is the exact one;
    the code rounds it to a double before the floor, which can move a
    draw within rounding distance of the end of a share to the next
    value, never out of the range. *)
Definition getRandomInt (r : Q) (min max : Z) : Z :=
  Qfloor (r * inject_Z (max - min + 1)) + min.

(** The bytes of the multiplication sign as the source file has them. *)
Definition times_sign : string :=
  String (ascii_of_nat 195) (String (ascii_of_nat 131)
    (String (ascii_of_nat 226) (String (ascii_of_nat 128)
      (String (ascii_of_nat 148) EmptyString)))).

(** [generateQuestion(operation, stage)]; [r1] and [r2] are the two draws
    of [Math.random()], in the order the calls are made.  The [default]
    branch of the [switch] cannot be reached by a value of type
    [Operation]. *)
Definition generateQuestion (op : Operation) (stage : Z) (r1 r2 : Q) : Question :=
  match op with
  | addition =>
      let '(num1, num2) :=
        if stage =? 1 then (getRandomInt r1 0 5, getRandomInt r2 0 5)
        else if stage =? 2 then (getRandomInt r1 0 10, getRandomInt r2 0 10)
        else (getRandomInt r1 0 20, getRandomInt r2 0 20) in
      {| text := (show num1 ++ " + " ++ show num2 ++ " = ?")%string; answer := num1 + num2 |}
  | subtraction =>
      let '(num1, num2) :=
        if stage =? 1 then
          let num1 := getRandomInt r1 1 10 in (num1, getRandomInt r2 0 num1)
        else
          let num1 := getRandomInt r1 1 20 in (num1, getRandomInt r2 0 num1) in
      {| text := (show num1 ++ " - " ++ show num2 ++ " = ?")%string; answer := num1 - num2 |}
  | multiplication =>
      let '(num1, num2) :=
        if stage =? 1 then (getRandomInt r1 1 5, getRandomInt r2 1 5)
        else if stage =? 2 then (getRandomInt r1 6 10, getRandomInt r2 1 10)
        else (getRandomInt r1 1 10, getRandomInt r2 1 10) in
      {| text := (show num1 ++ " " ++ times_sign ++ " " ++ show num2 ++ " = ?")%string;
         answer := num1 * num2 |}
  end.

(** A draw of [Math.random()]: a number in the half-open unit interval. *)
Definition unit_draw (r : Q) : Prop := (0 <= r)%Q /\ (r < 1)%Q.

(** The per-stage operand ranges as the design document lists them. *)
Definition stage_bounds (op : Operation) (stage num1 num2 : Z) : Prop :=
  match op with
  | addition =>
      if stage =? 1 then 0 <= num1 <= 5 /\ 0 <= num2 <= 5
      else if stage =? 2 then 0 <= num1 <= 10 /\ 0 <= num2 <= 10
      else 0 <= num1 <= 20 /\ 0 <= num2 <= 20
  | subtraction =>
      if stage =? 1 then 1 <= num1 <= 10 /\ 0 <= num2 <= num1
      else 1 <= num1 <= 20 /\ 0 <= num2 <= num1
  | multiplication =>
      if stage =? 1 then 1 <= num1 <= 5 /\ 1 <= num2 <= 5
      else if stage =? 2 then 6 <= num1 <= 10 /\ 1 <= num2 <= 10
      else 1 <= num1 <= 10 /\ 1 <= num2 <= 10
  end.

Definition symbol (op : Operation) : string :=
  match op with
  | addition => "+"
  | subtraction => "-"
  | multiplication => times_sign
  end.

Definition apply_op (op : Operation) (a b : Z) : Z :=
  match op with
  | addition => a + b
  | subtraction => a - b
  | multiplication => a * b
  end.

End QuizService.

(** ** The controller (context/AppContext.tsx) *)

Module AppContext.

(** A row of the remote [profiles] table (database.types.ts). *)
Record ProfileRow := {
  profile_id : string;
  profile_name : string;
  profile_role : Role;
  profile_child_id : option string
}.

(** A row of the remote [progress] table, with the columns the client
    writes and reads. *)
Record ProgressRow := {
  row_user_id : string;
  row_operation : Operation;
  row_stage : Z;
  row_score : Q;
  row_total_time : Q
}.

(** [ProgressData]: student id, then operation name, then stage key. *)
Abbreviation Progress := (gmap string Q).
Abbreviation StudentProgress := (gmap string (gmap string Q)).
Abbreviation ProgressData := (gmap string (gmap string (gmap string Q))).

(** The property name an [Operation] value is used as. *)
Definition operation_name (op : Operation) : string :=
  match op with
  | addition => "addition"
  | subtraction => "subtraction"
  | multiplication => "multiplication"
  end.

(** The template literal [`stage${stage}`]. *)
Definition stage_key (stage : Z) : string := ("stage" ++ show stage)%string.

(** *** The progress normalizer: the loop of [fetchAllProgressData] *)

(** One iteration of the [for (const record of data)] body, acting on
    [transformedData].  [studentProgress] aliases the object stored under
    [studentId], so the writes through it are written back.  The tests
    [!obj[key]] are lookups among the object's own properties: the keys are
    user ids (UUIDs) and the three operation names, none of which names a
    property inherited from [Object.prototype], and a stored value is an
    object, hence truthy. *)
Definition loop_body (record : ProgressRow) (transformedData : ProgressData) : ProgressData :=
  let studentId := row_user_id record in
  let transformedData :=
    match transformedData !! studentId with
    | None => <[studentId := ∅]> transformedData
    | Some _ => transformedData
    end in
  let studentProgress : StudentProgress := default ∅ (transformedData !! studentId) in
  let operation := operation_name (row_operation record) in
  let studentProgress :=
    match studentProgress !! operation with
    | None => <[operation := ∅]> studentProgress
    | Some _ => studentProgress
    end in
  let studentProgress :=
    <[operation := <[stage_key (row_stage record) := row_score record]>
                     (default ∅ (studentProgress !! operation))]> studentProgress in
  <[studentId := studentProgress]> transformedData.

(** The variables in scope of the loop: the fetched array and the object
    under construction. *)
Record LoopState := {
  data : list ProgressRow;
  transformedData : ProgressData
}.

(** The [for ... of] loop: the array iterator reads element [i] of the
    live array at each step and stops at its end; the body writes
    [transformedData] only. *)
Fixpoint for_of (fuel i : nat) (st : LoopState) : LoopState :=
  match fuel with
  | O => st
  | S fuel' =>
      match data st !! i with
      | None => st
      | Some record =>
          for_of fuel' (S i)
            {| data := data st;
               transformedData := loop_body record (transformedData st) |}
      end
  end.

Definition transform (rows : list ProgressRow) : LoopState :=
  for_of (length rows) 0%nat {| data := rows; transformedData := ∅ |}.

(** The index handed to [setProgressData]. *)
Definition normalize (rows : list ProgressRow) : ProgressData :=
  transformedData (transform rows).

(** Reading [index[studentId][operation][stageKey]]. *)
Definition stage_score (index : ProgressData) (studentId operation stageKey : string) : option Q :=
  match index !! studentId with
  | Some studentProgress =>
      match studentProgress !! operation with
      | Some progress => progress !! stageKey
      | None => None
      end
  | None => None
  end.

(** The entry [index[studentId][operation]]. *)
Definition operation_entry (index : ProgressData) (studentId operation : string)
    : option (gmap string Q) :=
  match index !! studentId with
  | Some studentProgress => studentProgress !! operation
  | None => None
  end.

(** The (student, operation, stage) triple of a record. *)
Definition triple (r : ProgressRow) : string * Operation * Z :=
  (row_user_id r, row_operation r, row_stage r).

(** *** Remote collaborator *)

(** [session.user] of a Supabase session. *)
Record Session := {
  session_user_id : string;
  session_user_email : string
}.

(** The calls the controller makes on the Supabase client. *)
Inductive Request :=
| AuthSignInWithPassword (email password : string)
| AuthSignOut
| AuthSignUp (email : string) (password : option string) (name : string) (role : Role)
| ProfilesSelectAll
| ProfilesSelectSingle (id : string)
| ProfilesUpdateChild (id child_id : string)
| ProfilesUpdate (id name : string) (role : Role) (child_id : option string)
| ProfilesDelete (id : string)
| ProgressSelectAll
| ProgressInsert (row : ProgressRow)
| ProgressDelete (user_id : string).

(** The [data] a successful call carries; for [auth.signUp] it is the id
    of [signUpData.user], when there is one. *)
Definition Payload (q : Request) : Type :=
  match q with
  | AuthSignUp _ _ _ _ => option string
  | ProfilesSelectAll => list ProfileRow
  | ProfilesSelectSingle _ => ProfileRow
  | ProgressSelectAll => list ProgressRow
  | _ => unit
  end.

(** The [{ data, error }] pair of a call: [error] set with its message, or
    [data]. *)
Inductive Reply (A : Type) :=
| Ok (data : A)
| Err (message : string).
Arguments Ok {A} data.
Arguments Err {A} message.

Record AppState := {
  isLoading : bool;
  users : list User;
  progressData : ProgressData;
  currentUser : option User;
  view : View;
  quizSettings : option QuizSettings;
  quizResults : option QuizSummary
}.

(** The [useState] initial values. *)
Definition initial_state : AppState :=
  {| isLoading := true; users := []; progressData := ∅; currentUser := None;
     view := login_view; quizSettings := None; quizResults := None |}.

Record Result := {
  success : bool;
  message : string
}.

(** The session is a student's. *)
Definition signed_in_as_student (s : AppState) : Prop :=
  exists user, currentUser s = Some user /\ user_role user = student.

(** [{ ...profile, email: session.user.email }]: the [User] the auth
    handler builds from a session and its profile row. *)
Definition userWithEmail (sess : Session) (profile : ProfileRow) : User :=
  {| user_id := profile_id profile; user_name := profile_name profile;
     user_email := Some (session_user_email sess);
     user_role := profile_role profile; user_childId := None;
     user_child_id := profile_child_id profile |}.

(** The row [finishQuiz] inserts for [user]. *)
Definition attempt_row (user : User) (summary : QuizSummary) : ProgressRow :=
  {| row_user_id := user_id user;
     row_operation := operation (settings summary);
     row_stage := stage (settings summary);
     row_score := score summary;
     row_total_time := totalTime summary |}.

(** [data as User[]]: a profile row seen as a [User]; the row has no
    [email] and spells the link [child_id]. *)
Definition as_User (p : ProfileRow) : User :=
  {| user_id := profile_id p; user_name := profile_name p; user_email := None;
     user_role := profile_role p; user_childId := None;
     user_child_id := profile_child_id p |}.

Section Controller.

(** The backend: any state [W] and any way of answering requests. *)
Context {W : Type} (remote : forall q : Request, W -> Reply (Payload q) * W).

(** What a controller operation acts on: the React state, the backend,
    the requests issued so far and the lines written by [console.error]. *)
Record Machine := {
  app : AppState;
  world : W;
  trace : list Request;
  console : list string
}.

Definition M (A : Type) : Type := Machine -> A * Machine.

Definition ret {A} (a : A) : M A := fun m => (a, m).

Definition bind {A B} (c : M A) (k : A -> M B) : M B :=
  fun m => let '(a, m') := c m in k a m'.

Notation "x <- c ;; k" := (bind c (fun x => k))
  (at level 100, c at next level, right associativity).
Notation "c ;; k" := (bind c (fun _ => k))
  (at level 100, right associativity).

(** [await supabase...]: the request is recorded and answered. *)
Definition call (q : Request) : M (Reply (Payload q)) :=
  fun m =>
    let '(r, w) := remote q (world m) in
    (r, {| app := app m; world := w; trace := trace m ++ [q]; console := console m |}).

Definition console_error (line : string) : M unit :=
  fun m => (tt, {| app := app m; world := world m; trace := trace m;
                   console := console m ++ [line] |}).

Definition get : M AppState := fun m => (app m, m).

Definition modify (f : AppState -> AppState) : M unit :=
  fun m => (tt, {| app := f (app m); world := world m; trace := trace m;
                   console := console m |}).

(** The state setters. *)
Definition setIsLoading (b : bool) : M unit :=
  modify (fun s => {| isLoading := b; users := users s; progressData := progressData s;
    currentUser := currentUser s; view := view s; quizSettings := quizSettings s;
    quizResults := quizResults s |}).

Definition setUsers (l : list User) : M unit :=
  modify (fun s => {| isLoading := isLoading s; users := l; progressData := progressData s;
    currentUser := currentUser s; view := view s; quizSettings := quizSettings s;
    quizResults := quizResults s |}).

Definition setProgressData (d : ProgressData) : M unit :=
  modify (fun s => {| isLoading := isLoading s; users := users s; progressData := d;
    currentUser := currentUser s; view := view s; quizSettings := quizSettings s;
    quizResults := quizResults s |}).

Definition setCurrentUser (u : option User) : M unit :=
  modify (fun s => {| isLoading := isLoading s; users := users s; progressData := progressData s;
    currentUser := u; view := view s; quizSettings := quizSettings s;
    quizResults := quizResults s |}).

Definition setView (v : View) : M unit :=
  modify (fun s => {| isLoading := isLoading s; users := users s; progressData := progressData s;
    currentUser := currentUser s; view := v; quizSettings := quizSettings s;
    quizResults := quizResults s |}).

Definition setQuizSettings (q : option QuizSettings) : M unit :=
  modify (fun s => {| isLoading := isLoading s; users := users s; progressData := progressData s;
    currentUser := currentUser s; view := view s; quizSettings := q;
    quizResults := quizResults s |}).

Definition setQuizResults (q : option QuizSummary) : M unit :=
  modify (fun s => {| isLoading := isLoading s; users := users s; progressData := progressData s;
    currentUser := currentUser s; view := view s; quizSettings := quizSettings s;
    quizResults := q |}).

Definition fetchAllUsers : M unit :=
  r <- call ProfilesSelectAll ;;
  match r with
  | Err e => console_error ("Error fetching users: " ++ e)
  | Ok rows => setUsers (map as_User rows)
  end.

Definition fetchAllProgressData : M unit :=
  r <- call ProgressSelectAll ;;
  match r with
  | Err e => console_error ("Error fetching progress data: " ++ e)
  | Ok rows => setProgressData (normalize rows)
  end.

(** The callback registered with [supabase.auth.onAuthStateChange]. *)
Definition onAuthStateChange (session : option Session) : M unit :=
  match session with
  | Some sess =>
      r <- call (ProfilesSelectSingle (session_user_id sess)) ;;
      match r with
      | Ok profile =>
          setCurrentUser (Some (userWithEmail sess profile)) ;;
          setView dashboard ;;
          fetchAllUsers ;;
          fetchAllProgressData
      | Err _ => ret tt
      end
  | None =>
      setCurrentUser None ;;
      setView login_view ;;
      setUsers [] ;;
      setProgressData ∅
  end ;;
  setIsLoading false.

Definition login (email password : string) : M Result :=
  r <- call (AuthSignInWithPassword email password) ;;
  match r with
  | Err e => ret {| success := false; message := e |}
  | Ok _ => ret {| success := true; message := "Login successful!" |}
  end.

Definition logout : M unit :=
  _ <- call AuthSignOut ;; ret tt.

(** Truthiness of [data.childId]: present and not the empty string. *)
Definition truthy (s : option string) : option string :=
  match s with
  | Some EmptyString => None
  | other => other
  end.

Definition link_failure_prefix : string := "User created, but failed to link child: ".

Definition signUp_success : Result :=
  {| success := true;
     message := "Sign up successful! Please check your email for a confirmation link." |}.

Definition signUp (d : UserData) : M Result :=
  r <- call (AuthSignUp (data_email d) (data_password d) (data_name d) (data_role d)) ;;
  match r with
  | Err e => ret {| success := false; message := e |}
  | Ok signUpUser =>
      match signUpUser, data_role d, truthy (data_childId d) with
      | Some newId, parent, Some childId =>
          r2 <- call (ProfilesUpdateChild newId childId) ;;
          match r2 with
          | Err e => ret {| success := false; message := link_failure_prefix ++ e |}
          | Ok _ => ret signUp_success
          end
      | _, _, _ => ret signUp_success
      end
  end.

Definition addUser (d : UserData) : M Result :=
  result <- signUp d ;;
  if success result then
    fetchAllUsers ;;
    ret {| success := true; message := "User added successfully. Admin will be logged out." |}
  else ret result.

Definition updateUser (updatedUser : User) : M Result :=
  r <- call (ProfilesUpdate (user_id updatedUser) (user_name updatedUser)
               (user_role updatedUser) (user_childId updatedUser)) ;;
  match r with
  | Err e => ret {| success := false; message := e |}
  | Ok _ =>
      fetchAllUsers ;;
      ret {| success := true; message := "User updated successfully." |}
  end.

Definition deleteUser (userId : string) : M unit :=
  r1 <- call (ProfilesDelete userId) ;;
  match r1 with
  | Err e => console_error ("Error deleting profile: " ++ e)
  | Ok _ => ret tt
  end ;;
  r2 <- call (ProgressDelete userId) ;;
  match r2 with
  | Err e => console_error ("Error deleting progress: " ++ e)
  | Ok _ => ret tt
  end ;;
  fetchAllUsers ;;
  fetchAllProgressData.

Definition startQuiz (settings : QuizSettings) : M unit :=
  setQuizSettings (Some settings) ;;
  setView quiz.

(** [finishQuiz] is a [useCallback] with the dependencies [currentUser]
    and [fetchAllProgressData].  The callback a render makes tests, and
    takes the id from, the [currentUser] of that render, [captured] here,
    whatever [currentUser] has become by the time it is called. *)
Definition finishQuiz_callback (captured : option User) (summary : QuizSummary) : M unit :=
  match captured with
  | None => ret tt
  | Some user =>
      if decide (user_role user = student) then
        setQuizResults (Some summary) ;;
        r <- call (ProgressInsert (attempt_row user summary)) ;;
        match r with
        | Err e => console_error ("Failed to save quiz progress: " ++ e)
        | Ok _ => fetchAllProgressData
        end ;;
        setView results_view
      else ret tt
  end.

(** The callback of the latest render, called while [currentUser] is
    still what that render saw. *)
Definition finishQuiz (summary : QuizSummary) : M unit :=
  s <- get ;;
  finishQuiz_callback (currentUser s) summary.

(** Everything a consumer of the context, or the auth subscription, can
    make the controller do.  A consumer may hold the [finishQuiz] of an
    earlier render: [captured] is the [currentUser] of the render whose
    callback is called. *)
Inductive Action :=
| DoSetView (v : View)
| DoLogin (email password : string)
| DoLogout
| DoSignUp (d : UserData)
| DoAddUser (d : UserData)
| DoUpdateUser (u : User)
| DoDeleteUser (userId : string)
| DoStartQuiz (settings : QuizSettings)
| DoFinishQuiz (captured : option User) (summary : QuizSummary)
| AuthEvent (session : option Session).

Definition perform (a : Action) : M unit :=
  match a with
  | DoSetView v => setView v
  | DoLogin email password => _ <- login email password ;; ret tt
  | DoLogout => logout
  | DoSignUp d => _ <- signUp d ;; ret tt
  | DoAddUser d => _ <- addUser d ;; ret tt
  | DoUpdateUser u => _ <- updateUser u ;; ret tt
  | DoDeleteUser userId => deleteUser userId
  | DoStartQuiz settings => startQuiz settings
  | DoFinishQuiz captured summary => finishQuiz_callback captured summary
  | AuthEvent session => onAuthStateChange session
  end.

End Controller.

Arguments Machine W : clear implicits.

End AppContext.

(** ** The admin dashboard's delete control (components/screens/AdminDashboard.tsx) *)

Module AdminDashboard.
Import AppContext.

(** [user.id !== currentUser?.id]: whether the row of [user] gets a delete
    button. *)
Definition offersDelete (currentUser : option User) (user : User) : bool :=
  match currentUser with
  | Some cu => negb (String.eqb (user_id user) (user_id cu))
  | None => true
  end.

Section Dashboard.

Context {W : Type} (remote : forall q : Request, W -> Reply (Payload q) * W).

(** [handleDelete]; [confirmed] is the answer to [window.confirm]. *)
Definition handleDelete (confirmed : bool) (userId userName : string) : M unit :=
  if confirmed then deleteUser remote userId else ret tt.

(** A click on the delete button of row [i] of the user table; the button
    exists only where it is rendered. *)
Definition clickDelete (i : nat) (confirmed : bool) : M unit :=
  fun m =>
    match users (app m) !! i with
    | Some user =>
        if offersDelete (currentUser (app m)) user
        then handleDelete confirmed (user_id user) (user_name user) m
        else (tt, m)
    | None => (tt, m)
    end.

End Dashboard.

End AdminDashboard.

(** ** The quiz screen (components/screens/QuizScreen.tsx) *)

Module QuizScreen.

Definition TOTAL_QUESTIONS : Z := 10.

(** *** [parseInt(answerStr, 10)]

    The value is the integer the digits denote.  JavaScript returns that
    integer as a number: the same up to 2^53, the nearest double
    beyond. *)

Definition is_white_space (c : ascii) : bool :=
  let n := nat_of_ascii c in
  ((9 <=? n) && (n <=? 13) || (n =? 32))%nat.

Fixpoint trim_start (s : string) : string :=
  match s with
  | String c rest => if is_white_space c then trim_start rest else s
  | EmptyString => s
  end.

Definition digit_value (c : ascii) : option Z :=
  let n := Z.of_nat (nat_of_ascii c) in
  if (48 <=? n) && (n <=? 57) then Some (n - 48) else None.

(** The value of the longest prefix of decimal digits, [None] when the
    prefix is empty. *)
Fixpoint leading_digits (acc : option Z) (s : string) : option Z :=
  match s with
  | String c rest =>
      match digit_value c with
      | Some d => leading_digits (Some (10 * default 0 acc + d)) rest
      | None => acc
      end
  | EmptyString => acc
  end.

Definition parseInt (s : string) : number :=
  let s := trim_start s in
  let '(sign, s) :=
    match s with
    | String "-" rest => (-1, rest)
    | String "+" rest => (1, rest)
    | _ => (1, s)
    end in
  match leading_digits None s with
  | Some n => Num (sign * n)
  | None => NaN
  end.

(** [answerNum === question.answer], for [answerNum : number | null]. *)
Definition strict_equal (answerNum : option number) (answer : Z) : bool :=
  match answerNum with
  | Some (Num z) => z =? answer
  | _ => false
  end.

(** *** Component state and closures *)

(** The [useState] cells of the component. *)
Record State := {
  question : option Question;
  questionIndex : Z;
  userAnswer : string;
  results : list QuizResult;
  isAnswered : bool;
  feedback : string;
  startTime : Z
}.

(** The variables a [nextQuestion] closure holds from the render that
    created it. *)
Record NextQuestion := {
  nq_quizSettings : option QuizSettings;
  nq_questionIndex : Z;
  nq_results : list QuizResult
}.

(** The variables a [handleAnswerSubmit] closure holds, [nextQuestion]
    among them. *)
Record HandleAnswerSubmit := {
  has_isAnswered : bool;
  has_question : option Question;
  has_startTime : Z;
  has_nextQuestion : NextQuestion
}.

(** The mounted component: the context's [quizSettings], the state cells,
    the [setTimeout] callbacks not yet run (oldest first) and the
    summaries passed to the context's [finishQuiz]. *)
Record Screen := {
  quizSettings : option QuizSettings;
  state : State;
  timeouts : list NextQuestion;
  finished : list QuizSummary
}.

Definition mount (quizSettings : option QuizSettings) (now : Z) : Screen :=
  {| quizSettings := quizSettings;
     state := {| question := None; questionIndex := 0; userAnswer := "";
                 results := []; isAnswered := false; feedback := "";
                 startTime := now |};
     timeouts := []; finished := [] |}.

(** The closures of the current render.  The dependency arrays of the two
    [useCallback]s list every captured variable, so the memoised closure
    holds the values of the latest render. *)
Definition render_nextQuestion (sc : Screen) : NextQuestion :=
  {| nq_quizSettings := quizSettings sc;
     nq_questionIndex := questionIndex (state sc);
     nq_results := results (state sc) |}.

Definition render_handleAnswerSubmit (sc : Screen) : HandleAnswerSubmit :=
  {| has_isAnswered := isAnswered (state sc);
     has_question := question (state sc);
     has_startTime := startTime (state sc);
     has_nextQuestion := render_nextQuestion sc |}.

Definition summarize (quizSettings : QuizSettings) (results : list QuizResult) : QuizSummary :=
  let totalTime := fold_left (fun sum r => (sum + timeTaken r)%Q) results 0%Q in
  let score :=
    (inject_Z (Z.of_nat (length (List.filter isCorrect results)))
       / inject_Z TOTAL_QUESTIONS * 100)%Q in
  {| settings := quizSettings; Types.results := results; score := score;
     totalTime := totalTime |}.

(** Running a [nextQuestion] closure at time [now]; [r1], [r2] are the
    draws [generateQuestion] makes.  [setQuestionIndex] is given an
    updater, so it acts on the live cell. *)
Definition nextQuestion (c : NextQuestion) (now : Z) (r1 r2 : Q) (sc : Screen) : Screen :=
  match nq_quizSettings c with
  | None => sc
  | Some quizSettings =>
      if nq_questionIndex c >=? TOTAL_QUESTIONS then
        {| quizSettings := QuizScreen.quizSettings sc; state := state sc;
           timeouts := timeouts sc;
           finished := finished sc ++ [summarize quizSettings (nq_results c)] |}
      else
        {| quizSettings := QuizScreen.quizSettings sc;
           state :=
             {| question := Some (QuizService.generateQuestion
                                    (operation quizSettings) (stage quizSettings) r1 r2);
                questionIndex := questionIndex (state sc) + 1;
                userAnswer := "";
                results := results (state sc);
                isAnswered := false;
                feedback := "";
                startTime := now |};
           timeouts := timeouts sc;
           finished := finished sc |}
  end.

(** Running a [handleAnswerSubmit] closure on [answerStr] at time [now].
    [setResults] is given an updater; the timeout callback calls the
    [nextQuestion] this closure holds. *)
Definition handleAnswerSubmit (c : HandleAnswerSubmit) (answerStr : string) (now : Z)
    (sc : Screen) : Screen :=
  match has_isAnswered c, has_question c with
  | false, Some question =>
      let timeTaken := (inject_Z (now - has_startTime c) / 1000)%Q in
      let answerNum := if decide (answerStr = "") then None else Some (parseInt answerStr) in
      let isCorrect := strict_equal answerNum (answer question) in
      {| quizSettings := quizSettings sc;
         state :=
           {| question := QuizScreen.question (state sc);
              questionIndex := questionIndex (state sc);
              userAnswer := userAnswer (state sc);
              results := results (state sc) ++
                [ {| Types.question := question; Types.userAnswer := answerNum;
                     isCorrect := isCorrect; timeTaken := timeTaken |} ];
              isAnswered := true;
              feedback := if isCorrect then "Correct!"
                          else ("Oops! The correct answer was " ++ show (answer question) ++ ".")%string;
              startTime := startTime (state sc) |};
         timeouts := timeouts sc ++ [has_nextQuestion c];
         finished := finished sc |}
  | _, _ => sc
  end.

(** What can happen to the mounted component.  The mount effect runs
    once, as in a production build. *)
Inductive Event :=
| MountEffect (now : Z) (r1 r2 : Q)
| Change (value : string)
| SubmitForm (now : Z)
| TimeUp (now : Z)
| TimeoutFires (now : Z) (r1 r2 : Q).

Definition step (sc : Screen) (e : Event) : Screen :=
  match e with
  | MountEffect now r1 r2 => nextQuestion (render_nextQuestion sc) now r1 r2 sc
  | Change value =>
      if isAnswered (state sc) then sc
      else
        {| quizSettings := quizSettings sc;
           state :=
             {| question := question (state sc);
                questionIndex := questionIndex (state sc);
                userAnswer := value;
                results := results (state sc);
                isAnswered := isAnswered (state sc);
                feedback := feedback (state sc);
                startTime := startTime (state sc) |};
           timeouts := timeouts sc; finished := finished sc |}
  | SubmitForm now =>
      handleAnswerSubmit (render_handleAnswerSubmit sc) (userAnswer (state sc)) now sc
  | TimeUp now =>
      handleAnswerSubmit (render_handleAnswerSubmit sc) "" now sc
  | TimeoutFires now r1 r2 =>
      match timeouts sc with
      | c :: rest =>
          nextQuestion c now r1 r2
            {| quizSettings := quizSettings sc; state := state sc;
               timeouts := rest; finished := finished sc |}
      | [] => sc
      end
  end.

Definition run (sc : Screen) (events : list Event) : Screen :=
  fold_left step events sc.

(** One question of a session: what the student typed, whether the form
    was submitted (at [answered_at]) or the timer ran out first, and the
    delayed [nextQuestion] call with its clock reading and draws. *)
Record Round := {
  typed : string;
  submitted : bool;
  answered_at : Z;
  continued_at : Z;
  draw1 : Q;
  draw2 : Q
}.

Definition round_events (r : Round) : list Event :=
  [ Change (typed r);
    (if submitted r then SubmitForm (answered_at r) else TimeUp (answered_at r));
    TimeoutFires (continued_at r) (draw1 r) (draw2 r) ].

(** A quiz session: the mount effect followed by the rounds. *)
Definition session (quizSettings : QuizSettings) (t0 now : Z) (r1 r2 : Q)
    (rounds : list Round) : Screen :=
  run (mount (Some quizSettings) t0)
      (MountEffect now r1 r2 :: concat (map round_events rounds)).

(** Question number [k] is on screen, unanswered, with [rs] recorded so
    far, no delayed call pending and nothing handed to [finishQuiz]. *)
Definition awaiting (qs : QuizSettings) (k : Z) (rs : list QuizResult) (sc : Screen) : Prop :=
  quizSettings sc = Some qs
  /\ questionIndex (state sc) = k
  /\ results (state sc) = rs
  /\ isAnswered (state sc) = false
  /\ is_Some (question (state sc))
  /\ timeouts sc = []
  /\ finished sc = [].

End QuizScreen.

(** ** An in-memory backend, for running the controller on examples *)

Module InMemory.
Import AppContext.

(** The two tables, and the requests that currently fail. *)
Record Store := {
  profiles : list ProfileRow;
  progress : list ProgressRow;
  failing : Request -> bool
}.

Definition unavailable : string := "unavailable".

Definition has_profile (id : string) (st : Store) : bool :=
  existsb (fun p => String.eqb (profile_id p) id) (profiles st).

Definition serve (q : Request) (st : Store) : Reply (Payload q) * Store :=
  if failing st q then (Err unavailable, st)
  else
    match q as q' return Reply (Payload q') * Store with
    | AuthSignInWithPassword _ _ => (Ok tt, st)
    | AuthSignOut => (Ok tt, st)
    | AuthSignUp email _ name role =>
        (Ok (Some email),
         {| profiles := profiles st ++
              [ {| profile_id := email; profile_name := name; profile_role := role;
                   profile_child_id := None |} ];
            progress := progress st; failing := failing st |})
    | ProfilesSelectAll => (Ok (profiles st), st)
    | ProfilesSelectSingle id =>
        match List.find (fun p => String.eqb (profile_id p) id) (profiles st) with
        | Some p => (Ok p, st)
        | None => (Err "no rows returned", st)
        end
    | ProfilesUpdateChild id child_id =>
        if has_profile child_id st then
          (Ok tt,
           {| profiles :=
                map (fun p => if String.eqb (profile_id p) id
                              then {| profile_id := profile_id p; profile_name := profile_name p;
                                      profile_role := profile_role p;
                                      profile_child_id := Some child_id |}
                              else p) (profiles st);
              progress := progress st; failing := failing st |})
        else (Err "foreign key violation", st)
    | ProfilesUpdate id name role child_id =>
        (Ok tt,
         {| profiles :=
              map (fun p => if String.eqb (profile_id p) id
                            then {| profile_id := id; profile_name := name;
                                    profile_role := role; profile_child_id := child_id |}
                            else p) (profiles st);
            progress := progress st; failing := failing st |})
    | ProfilesDelete id =>
        (Ok tt,
         {| profiles := List.filter (fun p => negb (String.eqb (profile_id p) id)) (profiles st);
            progress := progress st; failing := failing st |})
    | ProgressSelectAll => (Ok (progress st), st)
    | ProgressInsert row =>
        (Ok tt,
         {| profiles := profiles st; progress := progress st ++ [row];
            failing := failing st |})
    | ProgressDelete user_id =>
        (Ok tt,
         {| profiles := profiles st;
            progress := List.filter (fun r => negb (String.eqb (row_user_id r) user_id))
                          (progress st);
            failing := failing st |})
    end.

Definition healthy : Request -> bool := fun _ => false.

(** A freshly mounted provider in front of a store. *)
Definition boot (st : Store) : Machine Store :=
  {| app := initial_state; world := st; trace := []; console := [] |}.

(** Performing a list of actions in order. *)
Definition play (actions : list Action) (m : Machine Store) : Machine Store :=
  fold_left (fun m a => snd (perform serve a m)) actions m.

(** Sample data. *)
Definition ada : ProfileRow :=
  {| profile_id := "admin-1"; profile_name := "Ada"; profile_role := admin;
     profile_child_id := None |}.

Definition sam : ProfileRow :=
  {| profile_id := "student-1"; profile_name := "Sam"; profile_role := student;
     profile_child_id := None |}.

Definition tess : ProfileRow :=
  {| profile_id := "teacher-1"; profile_name := "Tess"; profile_role := teacher;
     profile_child_id := None |}.

Definition school : Store :=
  {| profiles := [ada; sam; tess]; progress := []; failing := healthy |}.

Definition session_of (p : ProfileRow) : Session :=
  {| session_user_id := profile_id p;
     session_user_email := (profile_id p ++ "@school.example")%string |}.

Definition easy_sums : QuizSettings :=
  {| operation := addition; stage := 1; timer := 8 |}.

Definition a_summary : QuizSummary :=
  {| settings := easy_sums; results := []; score := 70%Q; totalTime := 31%Q |}.

(** Sample states and inputs. *)
Definition admin_signed_in : Machine Store :=
  play [AuthEvent (Some (session_of ada))] (boot school).

Definition student_signed_in : Machine Store :=
  play [AuthEvent (Some (session_of sam))] (boot school).

Definition harder_sums : QuizSettings :=
  {| operation := addition; stage := 2; timer := 4 |}.

(** A student has taken a quiz and is back on the selection screen. *)
Definition after_first_quiz : Machine Store :=
  play [DoSetView selectQuiz; DoStartQuiz easy_sums;
        DoFinishQuiz (Some (userWithEmail (session_of sam) sam)) a_summary;
        DoSetView dashboard; DoSetView selectQuiz] student_signed_in.

Definition progress_delete_down (q : Request) : bool :=
  match q with ProgressDelete _ => true | _ => false end.

Definition progress_insert_down (q : Request) : bool :=
  match q with ProgressInsert _ => true | _ => false end.

Definition with_failing (f : Request -> bool) (m : Machine Store) : Machine Store :=
  {| app := app m;
     world := {| profiles := profiles (world m); progress := progress (world m);
                 failing := f |};
     trace := trace m; console := console m |}.

(** Three attempts of Sam: stage 1 twice, stage 2 in between. *)
Definition first_try : ProgressRow :=
  {| row_user_id := "student-1"; row_operation := addition; row_stage := 1;
     row_score := 40%Q; row_total_time := 52%Q |}.

Definition second_stage : ProgressRow :=
  {| row_user_id := "student-1"; row_operation := addition; row_stage := 2;
     row_score := 60%Q; row_total_time := 47%Q |}.

Definition retry : ProgressRow :=
  {| row_user_id := "student-1"; row_operation := addition; row_stage := 1;
     row_score := 90%Q; row_total_time := 35%Q |}.

(** A parent signing up with a child id no profile has. *)
Definition pat : UserData :=
  {| data_name := "Pat"; data_email := "pat@home.example"; data_password := Some "secret";
     data_role := parent; data_childId := Some "student-404" |}.

End InMemory.

(** ** Sample quiz sessions *)

Module Samples.
Import QuizScreen.

(** With these draws every stage-1 addition question is [3 + 4 = ?]. *)
Definition draw_a : Q := 1 # 2.
Definition draw_b : Q := 3 # 4.

(** Round [k] of a session in which the student types the right sum two
    seconds after the question appears. *)
Definition correct_round (k : nat) : Round :=
  {| typed := "7"; submitted := true;
     answered_at := 4000 * Z.of_nat k + 2000;
     continued_at := 4000 * Z.of_nat k + 3500;
     draw1 := draw_a; draw2 := draw_b |}.

Definition all_correct_session : Screen :=
  session InMemory.easy_sums 0 0 draw_a draw_b (map correct_round (seq 0 10)).

(** The first question is left alone until the timer's last tick, which
    comes 8004 ms after the question appeared. *)
Definition timed_out_question : Screen :=
  run (mount (Some InMemory.easy_sums) 0) [MountEffect 0 draw_a draw_b; TimeUp 8004].

End Samples.

(** ** Configuration (constants.ts) *)

Module Constants.

Record OperationDetails := {
  name : string;
  stages : nat;
  color : string
}.

Definition OPERATIONS (op : Operation) : OperationDetails :=
  match op with
  | addition => {| name := "Addition"; stages := 3; color := "bg-blue-500" |}
  | subtraction => {| name := "Subtraction"; stages := 2; color := "bg-green-500" |}
  | multiplication => {| name := "Multiplication"; stages := 3; color := "bg-red-500" |}
  end.

(** [Object.keys(OPERATIONS)], in the order the literal lists them. *)
Definition OPERATION_KEYS : list Operation := [addition; subtraction; multiplication].

Definition TIMER_OPTIONS : list Z := [8; 4; 3].

End Constants.

(** ** Screen selection (App.tsx) *)

Module App.
Import AppContext.

(** What [AppContent] puts in the main area. *)
Inductive Rendered :=
| ShowSpinner
| ShowLogin
| ShowSignUp
| ShowSelectQuiz
| ShowQuiz
| ShowResults
| ShowAdminDashboard
| ShowTeacherDashboard
| ShowStudentDashboard
| ShowParentDashboard.

Definition renderContent (s : AppState) : Rendered :=
  match currentUser s with
  | None =>
      match view s with
      | signUp_view => ShowSignUp
      | _ => ShowLogin
      end
  | Some user =>
      match view s with
      | selectQuiz => ShowSelectQuiz
      | quiz =>
          match quizSettings s with
          | None => ShowSelectQuiz
          | Some _ => ShowQuiz
          end
      | results_view =>
          match quizResults s with
          | None => ShowStudentDashboard
          | Some _ => ShowResults
          end
      | _ =>
          match user_role user with
          | admin => ShowAdminDashboard
          | teacher => ShowTeacherDashboard
          | student => ShowStudentDashboard
          | parent => ShowParentDashboard
          end
      end
  end.

(** [AppContent]: whether the header is shown, and the main area. *)
Definition AppContent (s : AppState) : bool * Rendered :=
  if isLoading s then (false, ShowSpinner)
  else (match currentUser s with Some _ => true | None => false end, renderContent s).

End App.

(** ** The countdown (components/ui/Timer.tsx) *)

Module Timer.

(** The [timeLeft] cell and whether the interval of the current effect is
    still set. *)
Record State := {
  timeLeft : Z;
  ticking : bool
}.

(** The effect, run when the timer mounts or its key changes. *)
Definition start (initialTime : Z) : State :=
  {| timeLeft := initialTime; ticking := 0 <? initialTime |}.

(** One firing of the interval callback; the boolean tells whether
    [onTimeUp] was called.  A cleared interval does not fire. *)
Definition tick (s : State) : State * bool :=
  if ticking s then
    if timeLeft s <=? 1 then ({| timeLeft := 0; ticking := false |}, true)
    else ({| timeLeft := timeLeft s - 1; ticking := true |}, false)
  else (s, false).

(** [n] seconds pass: the state and the number of [onTimeUp] calls. *)
Fixpoint ticks (n : nat) (s : State) : State * nat :=
  match n with
  | O => (s, O)
  | S n' =>
      let '(s1, fired) := tick s in
      let '(s2, calls) := ticks n' s1 in
      (s2, ((if fired then 1 else 0) + calls)%nat)
  end.

(** The width of the bar, in percent. *)
Definition percentage (initialTime : Z) (s : State) : Q :=
  (inject_Z (timeLeft s) / inject_Z initialTime * 100)%Q.

End Timer.

(** ** The quiz selection screen (components/screens/SelectQuizScreen.tsx) *)

Module SelectQuizScreen.
Import Constants.

Record State := {
  operation : Operation;
  stage : Z;
  timer : Z
}.

Definition initial : State := {| operation := addition; stage := 1; timer := 8 |}.

(** The stage buttons: [Array.from({ length: stages }, (_, i) => i + 1)]. *)
Definition stage_buttons (s : State) : list Z :=
  map (fun i => Z.of_nat i + 1) (seq 0 (stages (OPERATIONS (operation s)))).

(** A click on the [i]-th button of one of the three rows. *)
Inductive Click :=
| ClickOperation (i : nat)
| ClickStage (i : nat)
| ClickTimer (i : nat).

Definition click (s : State) (c : Click) : State :=
  match c with
  | ClickOperation i =>
      match OPERATION_KEYS !! i with
      | Some key => {| operation := key; stage := 1; timer := timer s |}
      | None => s
      end
  | ClickStage i =>
      match stage_buttons s !! i with
      | Some st => {| operation := operation s; stage := st; timer := timer s |}
      | None => s
      end
  | ClickTimer i =>
      match TIMER_OPTIONS !! i with
      | Some t => {| operation := operation s; stage := stage s; timer := t |}
      | None => s
      end
  end.

(** [handleStartQuiz]: the settings handed to [startQuiz]. *)
Definition handleStartQuiz (s : State) : QuizSettings :=
  {| Types.operation := operation s; Types.stage := stage s; Types.timer := timer s |}.

(** The settings chosen by a sequence of clicks followed by Start. *)
Definition chosen (clicks : list Click) : QuizSettings :=
  handleStartQuiz (fold_left click clicks initial).

(** The stage is one of the stages of the selected operation and the
    timer one of the offered timers. *)
Definition offered (s : State) : Prop :=
  1 <= stage s <= Z.of_nat (stages (OPERATIONS (operation s)))
  /\ In (timer s) TIMER_OPTIONS.

End SelectQuizScreen.

(** ** The dashboards (components/screens/*Dashboard.tsx) *)

Module Dashboards.
Import AppContext Constants.

(** [Object.values(opProgress)] and [Object.entries(opProgress)].  The
    order is the map's, not the insertion order of the object; sums of
    rationals do not depend on it. *)
Definition values (opProgress : gmap string Q) : list Q := (map_to_list opProgress).*2.

Definition entries (opProgress : gmap string Q) : list (string * Q) := map_to_list opProgress.

(** [Object.values(opProgress).reduce((sum, score) => sum + score, 0)] *)
Definition totalScore (opProgress : gmap string Q) : Q :=
  fold_left Qplus (values opProgress) 0%Q.

(** The average of the student and parent dashboards: the total over the
    number of stage keys. *)
Definition averageScore (opProgress : gmap string Q) : Q :=
  let stagesCompleted := size opProgress in
  if (0 <? stagesCompleted)%nat
  then (totalScore opProgress / inject_Z (Z.of_nat stagesCompleted))%Q
  else 0%Q.

(** [score > 0] *)
Definition positive_score (score : Q) : bool := negb (Qle_bool score 0).

(** The average of the teacher dashboard: the total over the number of
    stages with a score above zero. *)
Definition teacherAverageScore (opProgress : gmap string Q) : Q :=
  let stagesCompleted := length (List.filter positive_score (values opProgress)) in
  if (0 <? stagesCompleted)%nat
  then (totalScore opProgress / inject_Z (Z.of_nat stagesCompleted))%Q
  else 0%Q.

(** What is drawn for one operation. *)
Inductive OperationCard :=
| NoAttemptsYet (label : string)
| AverageCard (label : string) (average : Q) (stageScores : list (string * Q)).

(** [progressData[id] || {}] *)
Definition progressOf (progressData : ProgressData) (id : string) : gmap string (gmap string Q) :=
  default ∅ (progressData !! id).

(** The body of the [Object.keys(OPERATIONS).map] of the student and
    parent dashboards. *)
Definition operationCard (studentProgress : gmap string (gmap string Q)) (op : Operation)
    : OperationCard :=
  match studentProgress !! operation_name op with
  | None => NoAttemptsYet (name (OPERATIONS op))
  | Some opProgress =>
      AverageCard (name (OPERATIONS op)) (averageScore opProgress) (entries opProgress)
  end.

Inductive StudentView :=
| StudentNothing
| NoQuizzesYet
| StudentCards (cards : list OperationCard).

Definition StudentDashboard (s : AppState) : StudentView :=
  match currentUser s with
  | None => StudentNothing
  | Some user =>
      let studentProgress := progressOf (progressData s) (user_id user) in
      if (0 <? size studentProgress)%nat
      then StudentCards (map (operationCard studentProgress) OPERATION_KEYS)
      else NoQuizzesYet
  end.

Inductive ParentView :=
| NoChildLinked
| ChildNotFound
| ChildNoQuizzes (childName : string)
| ChildCards (childName : string) (cards : list OperationCard).

Definition ParentDashboard (s : AppState) : ParentView :=
  match currentUser s with
  | None => NoChildLinked
  | Some user =>
      match truthy (user_childId user) with
      | None => NoChildLinked
      | Some childId =>
          match List.find (fun u => String.eqb (user_id u) childId) (users s) with
          | None => ChildNotFound
          | Some child =>
              let childProgress := progressOf (progressData s) (user_id child) in
              if (0 <? size childProgress)%nat
              then ChildCards (user_name child)
                     (map (operationCard childProgress) OPERATION_KEYS)
              else ChildNoQuizzes (user_name child)
          end
      end
  end.

(** The body of the [Object.entries(OPERATIONS).map] of a teacher's
    student card: nothing for an operation without progress. *)
Definition teacherCard (progress : gmap string (gmap string Q)) (op : Operation)
    : option OperationCard :=
  match progress !! operation_name op with
  | None => None
  | Some opProgress =>
      Some (AverageCard (name (OPERATIONS op)) (teacherAverageScore opProgress)
              (entries opProgress))
  end.

Inductive StudentProgressCard :=
| NoQuizData (studentName : string)
| OperationCards (studentName : string) (cards : list (option OperationCard)).

Inductive TeacherView :=
| NoStudents
| StudentList (cards : list StudentProgressCard).

Definition TeacherDashboard (s : AppState) : TeacherView :=
  let students := List.filter (fun u => bool_decide (user_role u = student)) (users s) in
  if (0 <? length students)%nat then
    StudentList
      (map (fun st =>
              let progress := progressOf (progressData s) (user_id st) in
              if (0 <? size progress)%nat
              then OperationCards (user_name st) (map (teacherCard progress) OPERATION_KEYS)
              else NoQuizData (user_name st))
           students)
  else NoStudents.

End Dashboards.

(** ** The results screen (components/screens/ResultsScreen.tsx) *)

Module ResultsScreen.

(** [results.filter(r => r.isCorrect).length] *)
Definition correctAnswers (summary : QuizSummary) : nat :=
  length (List.filter isCorrect (results summary)).

(** [results.length - correctAnswers] *)
Definition incorrectAnswers (summary : QuizSummary) : Z :=
  Z.of_nat (length (results summary)) - Z.of_nat (correctAnswers summary).

End ResultsScreen.

(** ** The sign-up form (components/screens/SignUpScreen.tsx) *)

Module SignUpScreen.
Import AppContext.

(** The [useState] cells of the form. *)
Record Form := {
  name : string;
  email : string;
  password : string;
  role : Role;
  childId : string;
  message : string;
  isError : bool;
  isLoading : bool
}.

Definition report (f : Form) (message : string) (isError : bool) : Form :=
  {| name := name f; email := email f; password := password f; role := role f;
     childId := childId f; message := message; isError := isError; isLoading := false |}.

(** The [UserData] the form submits. *)
Definition userData (f : Form) : UserData :=
  {| data_name := name f; data_email := email f; data_password := Some (password f);
     data_role := role f;
     data_childId := if decide (role f = parent) then Some (childId f) else None |}.

(** The request [signUp] opens with, for the data of the form. *)
Definition signUp_request (f : Form) : Request :=
  AuthSignUp (email f) (Some (password f)) (name f) (role f).

Section Submit.

Context {W : Type} (remote : forall q : Request, W -> Reply (Payload q) * W).

Definition handleSignUp (f : Form) : M Form :=
  fun m =>
    if decide (role f = parent /\ childId f = "") then
      (report f "Please select your child." true, m)
    else if decide (password f = "") then
      (report f "Password is required." true, m)
    else
      let '(result, m') := signUp remote (userData f) m in
      (report f (AppContext.message result) (negb (success result)), m').

End Submit.

End SignUpScreen.

(** ** The admin's user form (components/UserManagementForm.tsx) *)

Module UserManagementForm.
Import AppContext.

Record Form := {
  name : string;
  email : string;
  password : string;
  role : Role;
  childId : string;
  message : string;
  isError : bool;
  isLoading : bool
}.

Definition report (f : Form) (message : string) (isError : bool) : Form :=
  {| name := name f; email := email f; password := password f; role := role f;
     childId := childId f; message := message; isError := isError; isLoading := false |}.

(** [role === 'parent' ? childId : null] *)
Definition linkedChild (f : Form) : option string :=
  if decide (role f = parent) then Some (childId f) else None.

(** [{ ...userToEdit, name, email, role, childId }] *)
Definition edited (userToEdit : User) (f : Form) : User :=
  {| user_id := user_id userToEdit; user_name := name f; user_email := Some (email f);
     user_role := role f; user_childId := linkedChild f;
     user_child_id := user_child_id userToEdit |}.

Definition added (f : Form) : UserData :=
  {| data_name := name f; data_email := email f; data_password := Some (password f);
     data_role := role f; data_childId := linkedChild f |}.

(** The requests the form opens with: the update for [user], and the
    sign-up of a new user. *)
Definition update_request (user : User) (f : Form) : Request :=
  ProfilesUpdate (user_id user) (name f) (role f) (linkedChild f).

Definition add_request (f : Form) : Request :=
  AuthSignUp (email f) (Some (password f)) (name f) (role f).

Section Submit.

Context {W : Type} (remote : forall q : Request, W -> Reply (Payload q) * W).

(** [handleSubmit]; the boolean tells whether [onComplete] was called. *)
Definition handleSubmit (userToEdit : option User) (f : Form) : M (Form * bool) :=
  fun m =>
    match userToEdit with
    | Some user =>
        let '(result, m') := updateUser remote (edited user f) m in
        ((report f (AppContext.message result) (negb (success result)), success result), m')
    | None =>
        if decide (password f = "") then
          ((report f "Password is required for new users." true, false), m)
        else
          let '(result, m') := addUser remote (added f) m in
          ((report f (AppContext.message result) (negb (success result)), success result), m')
    end.

End Submit.

End UserManagementForm.

(** ** The quiz screen inside the application *)

Module QuizFlow.
Import AppContext.

Section Flow.

Context {W : Type} (remote : forall q : Request, W -> Reply (Payload q) * W).

(** The provider and one mounted quiz screen.  The screen's delayed
    callbacks are never cancelled, so they outlive the screen. *)
Record Flow := {
  controller : Machine W;
  quizScreen : QuizScreen.Screen
}.

Inductive FlowEvent :=
| OnScreen (e : QuizScreen.Event)
| ExitQuiz (confirmed : bool).

(** The quiz screen is what [App] shows. *)
Definition quiz_shown (fl : Flow) : bool :=
  match App.AppContent (app (controller fl)) with
  | (_, App.ShowQuiz) => true
  | _ => false
  end.

(** Whether the event needs the screen's DOM or timer. *)
Definition needs_screen (e : QuizScreen.Event) : bool :=
  match e with
  | QuizScreen.TimeoutFires _ _ _ => false
  | _ => true
  end.

(** The context's [finishQuiz], called on each summary in turn.  A flow
    has no auth event, so [currentUser] is still what the render that set
    the delayed call saw and the callback is the current one;
    [delayed_call] below is the general case. *)
Definition finish_all (summaries : list QuizSummary) (m : Machine W) : Machine W :=
  fold_left (fun m summary => snd (finishQuiz remote summary m)) summaries m.

Definition flow_step (fl : Flow) (ev : FlowEvent) : Flow :=
  match ev with
  | OnScreen e =>
      if needs_screen e && negb (quiz_shown fl) then fl
      else
        let sc := QuizScreen.step (quizScreen fl) e in
        let handed :=
          drop (length (QuizScreen.finished (quizScreen fl))) (QuizScreen.finished sc) in
        {| controller := finish_all handed (controller fl); quizScreen := sc |}
  | ExitQuiz confirmed =>
      if quiz_shown fl && confirmed
      then {| controller := snd (setView dashboard (controller fl));
              quizScreen := quizScreen fl |}
      else fl
  end.

Definition flow_run (fl : Flow) (events : list FlowEvent) : Flow :=
  fold_left flow_step events fl.

(** [controller] just after [startQuiz settings], with the screen mounted
    at time [t0]. *)
Definition enter (settings : QuizSettings) (t0 : Z) (m : Machine W) : Flow :=
  {| controller := snd (startQuiz settings m);
     quizScreen := QuizScreen.mount (Some settings) t0 |}.

(** The requests of a trace that insert an attempt. *)
Definition inserts (trace : list Request) : list ProgressRow :=
  omap (fun q => match q with ProgressInsert row => Some row | _ => None end) trace.

(** Performing controller actions in order. *)
Definition perform_all (actions : list Action) (m : Machine W) : Machine W :=
  fold_left (fun m a => snd (perform remote a m)) actions m.

(** The rest of the application acting on the provider while the
    screen's delayed call is pending. *)
Definition meanwhile (actions : list Action) (fl : Flow) : Flow :=
  {| controller := perform_all actions (controller fl); quizScreen := quizScreen fl |}.

(** The delayed call set by a render in which [currentUser] was
    [captured].  It runs [nextQuestion] of that render, and the
    [finishQuiz] which that [nextQuestion] holds is the callback of that
    render as well.  [flow_step] on [TimeoutFires] is the case in which
    [currentUser] has not changed since the call was set. *)
Definition delayed_call (captured : option User) (fl : Flow) (now : Z) (r1 r2 : Q) : Flow :=
  let sc := QuizScreen.step (quizScreen fl) (QuizScreen.TimeoutFires now r1 r2) in
  let handed :=
    drop (length (QuizScreen.finished (quizScreen fl))) (QuizScreen.finished sc) in
  {| controller :=
       fold_left (fun m summary => snd (finishQuiz_callback remote captured summary m))
         handed (controller fl);
     quizScreen := sc |}.

End Flow.

(** The targets [setView] is called with outside the provider. *)
Definition ui_action (a : Action) : Prop :=
  match a with
  | DoSetView v => v = dashboard \/ v = selectQuiz \/ v = login_view \/ v = signUp_view
  | _ => True
  end.

Definition not_auth_event (a : Action) : Prop :=
  match a with
  | AuthEvent _ => False
  | _ => True
  end.

(** [view] is on the quiz or results screen only with the matching cell
    filled. *)
Definition cells_present (s : AppState) : Prop :=
  (view s = quiz -> is_Some (quizSettings s))
  /\ (view s = results_view -> is_Some (quizResults s)).

(** The signed-in user has no a [childId]. *)
Definition no_childId (s : AppState) : Prop :=
  forall u, currentUser s = Some u -> user_childId u = None.

(** A freshly mounted provider in front of a backend in state [w]. *)
Definition fresh {W : Type} (w : W) : Machine W :=
  {| app := initial_state; world := w; trace := []; console := [] |}.

End QuizFlow.

(** ** Phases of the quiz screen *)

Module QuizPhases.
Import QuizScreen.
Local Open Scope list_scope.

(** The elapsed time recorded at [now]. *)
Definition elapsed (sc : Screen) (now : Z) : Q :=
  (inject_Z (now - startTime (state sc)) / 1000)%Q.

(** [Number.MAX_SAFE_INTEGER].  [parseInt] above gives the integer the
    digits denote; the number JavaScript returns is that integer up to
    this bound, and the nearest double beyond it. *)
Definition MAX_SAFE_INTEGER : Z := 2 ^ 53 - 1.

(** The values of [parseInt] above that are the number JavaScript
    returns. *)
Definition read_exactly (n : number) : Prop :=
  match n with
  | NaN => True
  | Num z => Z.abs z <= MAX_SAFE_INTEGER
  end.


(** Question [k] has been answered with [rs] recorded before it, and the
    delayed call is pending. *)
Definition revealed (qs : QuizSettings) (k : Z) (rs : list QuizResult) (sc : Screen) : Prop :=
  quizSettings sc = Some qs
  /\ questionIndex (state sc) = k
  /\ (exists r, results (state sc) = rs ++ [r])
  /\ isAnswered (state sc) = true
  /\ is_Some (question (state sc))
  /\ timeouts sc = [ {| nq_quizSettings := Some qs; nq_questionIndex := k;
                        nq_results := rs |} ]
  /\ finished sc = [].



End QuizPhases.

(** ** More sample data *)

Module Scenarios.
Import AppContext InMemory.

(** A parent whose profile row links Sam. *)
Definition pia : ProfileRow :=
  {| profile_id := "parent-1"; profile_name := "Pia"; profile_role := parent;
     profile_child_id := Some "student-1" |}.

Definition family : Store :=
  {| profiles := [ada; sam; pia];
     progress := [first_try; second_stage; retry];
     failing := healthy |}.

(** Sam's scores for one operation: stage 1 failed, stage 2 at 80. *)
Definition mixed_scores : gmap string Q :=
  <["stage1" := 0%Q]> (<["stage2" := 80%Q]> ∅).

(** A state in which Sam's progress has been fetched. *)
Definition sam_with_progress : AppState :=
  {| isLoading := false; users := map as_User [ada; sam];
     progressData := normalize [first_try; second_stage; retry];
     currentUser := Some (userWithEmail (session_of sam) sam);
     view := dashboard; quizSettings := None; quizResults := None |}.

(** Sam takes a second quiz. *)
Definition second_summary : QuizSummary :=
  {| settings := easy_sums; results := []; score := 90%Q; totalTime := 22%Q |}.

(** Clicks and calls between sign-in and a finished quiz. *)
Definition a_visit : list Action :=
  [AuthEvent (Some (session_of sam)); DoSetView selectQuiz; DoStartQuiz easy_sums;
   DoFinishQuiz (Some (userWithEmail (session_of sam) sam)) a_summary;
   DoSetView selectQuiz; DoStartQuiz harder_sums].

(** What a signed-out visitor can do, and a delayed call left behind by
    the quiz of the student who signed out. *)
Definition a_stroll : list Action :=
  [DoSetView signUp_view; DoSignUp pat; DoSetView login_view;
   DoLogin "pat@home.example" "secret";
   DoFinishQuiz (Some (userWithEmail (session_of sam) sam)) a_summary].

(** Sam has answered the tenth question and the delayed call is
    pending. *)
Definition nine_rounds : list QuizScreen.Event :=
  QuizScreen.MountEffect 0 Samples.draw_a Samples.draw_b
  :: concat (map QuizScreen.round_events (map Samples.correct_round (seq 0 9))).

Definition last_answered : QuizFlow.Flow (W := Store) :=
  QuizFlow.flow_run serve (QuizFlow.enter easy_sums 0 student_signed_in)
    (map QuizFlow.OnScreen
       (nine_rounds ++ [QuizScreen.Change "7"; QuizScreen.SubmitForm 38000])).

(** The first nine results of that session. *)
Definition first_nine : list QuizResult :=
  take 9 (QuizScreen.results (QuizScreen.state (QuizFlow.quizScreen last_answered))).

(** Sam signs out with the header's button while the delayed call of the
    tenth answer is pending: [logout], then the auth event without a
    session. *)
Definition signed_out_early : QuizFlow.Flow (W := Store) :=
  QuizFlow.meanwhile serve [DoLogout; AuthEvent None] last_answered.

(** The delayed call then runs, 1.5 s after the answer.  It was set by
    the render in which the answer was submitted, with Sam signed in. *)
Definition late_finish : QuizFlow.Flow (W := Store) :=
  QuizFlow.delayed_call serve (currentUser (app (QuizFlow.controller last_answered)))
    signed_out_early 39500 Samples.draw_a Samples.draw_b.


(** Sign-up forms. *)
Definition parent_form : SignUpScreen.Form :=
  {| SignUpScreen.name := "Pat"; SignUpScreen.email := "pat@home.example";
     SignUpScreen.password := "secret"; SignUpScreen.role := parent;
     SignUpScreen.childId := "student-1"; SignUpScreen.message := "";
     SignUpScreen.isError := false; SignUpScreen.isLoading := false |}.

Definition teacher_form_with_leftover_child : SignUpScreen.Form :=
  {| SignUpScreen.name := "Tom"; SignUpScreen.email := "tom@school.example";
     SignUpScreen.password := "secret"; SignUpScreen.role := teacher;
     SignUpScreen.childId := "student-1"; SignUpScreen.message := "";
     SignUpScreen.isError := false; SignUpScreen.isLoading := false |}.

(** The admin edits Tess into a parent without selecting a child. *)
Definition edit_form : UserManagementForm.Form :=
  {| UserManagementForm.name := "Tess"; UserManagementForm.email := "";
     UserManagementForm.password := ""; UserManagementForm.role := parent;
     UserManagementForm.childId := ""; UserManagementForm.message := "";
     UserManagementForm.isError := false; UserManagementForm.isLoading := false |}.

End Scenarios.

(** * Properties *)

(** ** The question generator *)

Module Generator.
Import QuizService.

Lemma getRandomInt_range (r : Q) (min max : Z) :
  unit_draw r -> min <= max -> min <= getRandomInt r min max <= max.
Proof.
  intros [Hlo Hhi] Hle. unfold getRandomInt.
  set (n := max - min + 1).
  assert (Hn : 0 < n) by (unfold n; lia).
  assert (HnQ : (0 < inject_Z n)%Q).
  { change 0%Q with (inject_Z 0). rewrite <- Zlt_Qlt. exact Hn. }
  assert (H0 : 0 <= Qfloor (r * inject_Z n)).
  { change 0 with (Qfloor (inject_Z 0)). apply Qfloor_resp_le.
    change (inject_Z 0) with 0%Q. apply Qmult_le_0_compat; [exact Hlo|].
    apply Qlt_le_weak; exact HnQ. }
  assert (H1 : Qfloor (r * inject_Z n) < n).
  { rewrite Zlt_Qlt. eapply Qle_lt_trans; [apply Qfloor_le|].
    apply Qlt_le_trans with (1 * inject_Z n)%Q.
    - apply Qmult_lt_compat_r; assumption.
    - rewrite Qmult_1_l. apply Qle_refl. }
  unfold n in *. lia.
Qed.

Example getRandomInt_lowest : getRandomInt 0 1 10 = 1.
Proof. reflexivity. Qed.

Example getRandomInt_highest : getRandomInt (999 # 1000) 1 10 = 10.
Proof. reflexivity. Qed.

Example stage2_times_table :
  generateQuestion multiplication 2 (1 # 2) (1 # 4)
  = {| text := ("8 " ++ times_sign ++ " 3 = ?")%string; answer := 24 |}.
Proof. reflexivity. Qed.

Example stage1_subtraction :
  generateQuestion subtraction 1 (9 # 10) (1 # 2) = {| text := "10 - 5 = ?"; answer := 5 |}.
Proof. reflexivity. Qed.

Lemma show_inj (a b : Z) : show a = show b -> a = b.
Proof.
  unfold show. intros H.
  assert (Hi : Some (Z.to_int a) = Some (Z.to_int b)).
  { rewrite <- !NilEmpty.isi. now rewrite H. }
  injection Hi as Hi. rewrite <- (DecimalZ.of_to a), <- (DecimalZ.of_to b).
  now rewrite Hi.
Qed.

(** C2. For every operation and every stage from 1 on, whatever the two
    random draws in the unit interval, the generated question is built
    from two operands that lie in the inclusive per-stage ranges: its text
    is [num1 symbol num2 = ?], its answer is the sum, difference or product
    of the operands, and a difference is never negative.  The generator is
    a total function of the operation, the stage and the draws. *)
Theorem generateQuestion_within_stage_bounds (op : Operation) (stage : Z) (r1 r2 : Q) :
  1 <= stage -> unit_draw r1 -> unit_draw r2 ->
  exists num1 num2 : Z,
    text (generateQuestion op stage r1 r2)
      = (show num1 ++ " " ++ symbol op ++ " " ++ show num2 ++ " = ?")%string
    /\ answer (generateQuestion op stage r1 r2) = apply_op op num1 num2
    /\ stage_bounds op stage num1 num2
    /\ (op = subtraction -> 0 <= answer (generateQuestion op stage r1 r2)).
Proof.
  intros Hs H1 H2.
  destruct op; unfold generateQuestion, stage_bounds;
    destruct (stage =? 1) eqn:E1; [| destruct (stage =? 2) eqn:E2 | | | | destruct (stage =? 2) eqn:E2 ];
    cbn [text answer symbol apply_op].
  all: eexists _, _; split; [reflexivity|]; split; [reflexivity|].
  all: repeat match goal with
       | |- context [getRandomInt ?r ?lo ?hi] =>
           lazymatch goal with
           | _ : lo <= getRandomInt r lo hi <= hi |- _ => fail
           | _ => idtac
           end;
           let H := fresh "G" in
           assert (H : lo <= getRandomInt r lo hi <= hi)
             by (apply getRandomInt_range; [assumption | lia])
       end.
  all: split; [lia | intros; try discriminate; lia].
Qed.

Lemma generateQuestion_within_stage_bounds_witness :
  exists num1 num2 : Z,
    text (generateQuestion subtraction 2 (1#2) (3#4))
      = (show num1 ++ " " ++ symbol subtraction ++ " " ++ show num2 ++ " = ?")%string
    /\ answer (generateQuestion subtraction 2 (1#2) (3#4)) = apply_op subtraction num1 num2
    /\ stage_bounds subtraction 2 num1 num2
    /\ (subtraction = subtraction -> 0 <= answer (generateQuestion subtraction 2 (1#2) (3#4))).
Proof.
  apply (generateQuestion_within_stage_bounds subtraction 2 (1#2) (3#4)).
  - lia.
  - split; [discriminate | reflexivity].
  - split; [discriminate | reflexivity].
Defined.

End Generator.

(** ** The progress normalizer *)

Module Normalizer.
Import AppContext.
Local Open Scope list_scope.

(** The loop is a left fold of its body over the fetched rows, and leaves
    the array as it was. *)
Lemma for_of_fold (fuel i : nat) (rows : list ProgressRow) (t : ProgressData) :
  (length rows ≤ fuel + i)%nat ->
  for_of fuel i {| data := rows; transformedData := t |}
  = {| data := rows;
       transformedData := foldl (fun t r => loop_body r t) t (drop i rows) |}.
Proof.
  revert i t. induction fuel as [|fuel IH]; intros i t Hlen; cbn [for_of data transformedData].
  - rewrite drop_ge by lia. reflexivity.
  - destruct (rows !! i) as [record|] eqn:Hi.
    + rewrite IH by lia. rewrite (drop_S _ _ _ Hi). reflexivity.
    + apply lookup_ge_None in Hi. rewrite drop_ge by lia. reflexivity.
Qed.

Lemma normalize_fold (rows : list ProgressRow) :
  normalize rows = foldl (fun t r => loop_body r t) ∅ rows.
Proof.
  unfold normalize, transform. rewrite for_of_fold by lia. reflexivity.
Qed.

Lemma normalize_snoc (rows : list ProgressRow) (r : ProgressRow) :
  normalize (rows ++ [r]) = loop_body r (normalize rows).
Proof. rewrite !normalize_fold, foldl_app. reflexivity. Qed.

(** Creating a missing entry before writing it. *)
Lemma ensure_default {V} (m : gmap string V) (k : string) (d : V) :
  default d (match m !! k with None => <[k := d]> m | Some _ => m end !! k)
  = default d (m !! k).
Proof.
  destruct (m !! k) as [v|] eqn:Hk.
  - rewrite Hk. reflexivity.
  - rewrite lookup_insert_eq. reflexivity.
Qed.

Lemma ensure_insert {V} (m : gmap string V) (k : string) (d v : V) :
  <[k := v]> (match m !! k with None => <[k := d]> m | Some _ => m end) = <[k := v]> m.
Proof.
  destruct (m !! k) as [v'|] eqn:Hk; [reflexivity | apply insert_insert_eq].
Qed.

(** The body as a single nested update. *)
Lemma loop_body_insert (r : ProgressRow) (t : ProgressData) :
  loop_body r t
  = <[row_user_id r :=
        <[operation_name (row_operation r) :=
            <[stage_key (row_stage r) := row_score r]>
              (default ∅ (default ∅ (t !! row_user_id r) !! operation_name (row_operation r)))]>
          (default ∅ (t !! row_user_id r))]> t.
Proof.
  unfold loop_body. cbv zeta.
  rewrite ensure_insert, ensure_default, ensure_insert, ensure_default.
  reflexivity.
Qed.

Lemma loop_body_student (r : ProgressRow) (t : ProgressData) (sid : string) :
  is_Some (loop_body r t !! sid) <-> row_user_id r = sid \/ is_Some (t !! sid).
Proof.
  rewrite loop_body_insert.
  destruct (decide (row_user_id r = sid)) as [->|Hne].
  - rewrite lookup_insert_eq. split; [auto | eauto].
  - rewrite lookup_insert_ne by exact Hne. tauto.
Qed.

Lemma loop_body_operation (r : ProgressRow) (t : ProgressData) (sid op : string) :
  is_Some (operation_entry (loop_body r t) sid op)
  <-> (row_user_id r = sid /\ operation_name (row_operation r) = op)
      \/ is_Some (operation_entry t sid op).
Proof.
  unfold operation_entry. rewrite loop_body_insert.
  destruct (decide (row_user_id r = sid)) as [<-|Hne].
  - rewrite lookup_insert_eq.
    destruct (decide (operation_name (row_operation r) = op)) as [<-|Hop].
    + rewrite lookup_insert_eq. split; [auto | eauto].
    + rewrite lookup_insert_ne by exact Hop.
      destruct (t !! row_user_id r); simpl; [tauto|].
      rewrite lookup_empty. split; [intros [? ?]; discriminate | intros [[_ ?]|[? ?]]; [tauto | discriminate]].
  - rewrite lookup_insert_ne by exact Hne. tauto.
Qed.

Lemma stage_score_operation_entry (index : ProgressData) (sid op k : string) :
  stage_score index sid op k
  = match operation_entry index sid op with Some pr => pr !! k | None => None end.
Proof. unfold stage_score, operation_entry. destruct (index !! sid); reflexivity. Qed.

Lemma loop_body_stage_same (r : ProgressRow) (t : ProgressData) :
  stage_score (loop_body r t) (row_user_id r) (operation_name (row_operation r))
    (stage_key (row_stage r)) = Some (row_score r).
Proof.
  unfold stage_score. rewrite loop_body_insert.
  rewrite lookup_insert_eq, lookup_insert_eq, lookup_insert_eq. reflexivity.
Qed.

Lemma loop_body_stage_other (r : ProgressRow) (t : ProgressData) (sid op k : string) :
  (row_user_id r, operation_name (row_operation r), stage_key (row_stage r)) <> (sid, op, k) ->
  stage_score (loop_body r t) sid op k = stage_score t sid op k.
Proof.
  intros Hne. unfold stage_score. rewrite loop_body_insert.
  destruct (decide (row_user_id r = sid)) as [<-|Hsid];
    [|rewrite lookup_insert_ne by exact Hsid; reflexivity].
  rewrite lookup_insert_eq.
  destruct (decide (operation_name (row_operation r) = op)) as [<-|Hop].
  - rewrite lookup_insert_eq.
    destruct (decide (stage_key (row_stage r) = k)) as [<-|Hk]; [congruence|].
    rewrite lookup_insert_ne by exact Hk.
    destruct (t !! row_user_id r) as [sp|]; simpl.
    + destruct (sp !! operation_name (row_operation r)); simpl;
        [reflexivity | apply lookup_empty].
    + rewrite lookup_empty; simpl. apply lookup_empty.
  - rewrite lookup_insert_ne by exact Hop.
    destruct (t !! row_user_id r) as [sp|]; simpl; [reflexivity|].
    rewrite lookup_empty. reflexivity.
Qed.

Lemma loop_body_stage (r : ProgressRow) (t : ProgressData) (sid op k : string) :
  is_Some (stage_score (loop_body r t) sid op k)
  <-> (row_user_id r = sid /\ operation_name (row_operation r) = op
       /\ stage_key (row_stage r) = k)
      \/ is_Some (stage_score t sid op k).
Proof.
  destruct (decide ((row_user_id r, operation_name (row_operation r),
                     stage_key (row_stage r)) = (sid, op, k))) as [Heq|Hne].
  - injection Heq as <- <- <-. rewrite loop_body_stage_same. split; [auto | eauto].
  - rewrite loop_body_stage_other by exact Hne.
    split; [auto | intros [(<- & <- & <-)|?]; [congruence | assumption]].
Qed.

(** A kind of key is in the index exactly when some row asks for it. *)
Lemma normalize_present (P : ProgressData -> Prop) (wanted : ProgressRow -> Prop)
    (rows : list ProgressRow) :
  ~ P ∅ ->
  (forall r t, P (loop_body r t) <-> wanted r \/ P t) ->
  P (normalize rows) <-> exists r, r ∈ rows /\ wanted r.
Proof.
  intros Hempty Hstep. induction rows as [|r rows IH] using rev_ind.
  - change (normalize []) with (∅ : ProgressData). split; [tauto|].
    intros (r & Hr & _). inversion Hr.
  - rewrite normalize_snoc, Hstep, IH. split.
    + intros [Hw|(r' & Hin & Hw)].
      * exists r. split; [apply elem_of_app; right; apply list_elem_of_singleton; reflexivity | exact Hw].
      * exists r'. split; [apply elem_of_app; left; exact Hin | exact Hw].
    + intros (r' & Hin & Hw). apply elem_of_app in Hin as [Hin|Hin].
      * right. eauto.
      * apply list_elem_of_singleton in Hin. subst r'. left. exact Hw.
Qed.

Lemma operation_name_inj (a b : Operation) : operation_name a = operation_name b -> a = b.
Proof. destruct a, b; cbn; intros H; try reflexivity; discriminate H. Qed.

Lemma stage_key_inj (a b : Z) : stage_key a = stage_key b -> a = b.
Proof. unfold stage_key. cbn. intros H. injection H as H. exact (Generator.show_inj _ _ H). Qed.

Lemma normalize_last_row_wins (before after : list ProgressRow) (r : ProgressRow) :
  (forall r', r' ∈ after -> triple r' <> triple r) ->
  stage_score (normalize (before ++ r :: after)) (row_user_id r)
    (operation_name (row_operation r)) (stage_key (row_stage r)) = Some (row_score r).
Proof.
  induction after as [|r' after IH] using rev_ind; intros Hlater.
  - rewrite normalize_snoc.
    apply loop_body_stage_same.
  - replace (before ++ r :: after ++ [r']) with ((before ++ r :: after) ++ [r'])
      by (rewrite <- app_assoc; reflexivity).
    rewrite normalize_snoc, loop_body_stage_other.
    + apply IH. intros r'' Hin. apply Hlater. apply elem_of_app. left. exact Hin.
    + intros Heq. apply pair_equal_spec in Heq as [Heq H3].
      apply pair_equal_spec in Heq as [H1 H2].
      apply (Hlater r'); [apply elem_of_app; right; apply list_elem_of_singleton; reflexivity|].
      unfold triple. apply operation_name_inj in H2. apply stage_key_inj in H3. congruence.
Qed.

(** C3. The normalizer maps the empty list to the empty index; leaves the
    list of records as it was; has a student key, an operation key under a
    student, and a stage score under both exactly when some input record
    carries them, so that no entry is a placeholder; and where several
    records share (student, operation, stage), the stage score is the score
    of the record that comes last in the input. *)
Theorem normalize_last_write_wins (rows : list ProgressRow) :
  normalize [] = ∅
  /\ data (transform rows) = rows
  /\ (forall sid : string,
        is_Some (normalize rows !! sid)
        <-> exists r, r ∈ rows /\ row_user_id r = sid)
  /\ (forall (sid op : string) (sp : gmap string (gmap string Q)),
        normalize rows !! sid = Some sp ->
        (is_Some (sp !! op)
         <-> exists r, r ∈ rows /\ row_user_id r = sid
                       /\ operation_name (row_operation r) = op))
  /\ (forall sid op k : string,
        is_Some (stage_score (normalize rows) sid op k)
        <-> exists r, r ∈ rows /\ row_user_id r = sid
                      /\ operation_name (row_operation r) = op
                      /\ stage_key (row_stage r) = k)
  /\ (forall (before after : list ProgressRow) (r : ProgressRow),
        rows = (before ++ r :: after)%list ->
        (forall r', r' ∈ after -> triple r' <> triple r) ->
        stage_score (normalize rows) (row_user_id r)
          (operation_name (row_operation r)) (stage_key (row_stage r))
        = Some (row_score r)).
Proof.
  split; [reflexivity|]. split.
  { unfold transform. rewrite for_of_fold by lia. reflexivity. }
  split.
  { intros sid. apply (normalize_present (fun t => is_Some (t !! sid))).
    - rewrite lookup_empty. intros [? ?]; discriminate.
    - intros r t. apply loop_body_student. }
  split.
  { intros sid op sp Hsp.
    assert (Hop : is_Some (operation_entry (normalize rows) sid op)
                  <-> exists r, r ∈ rows /\ row_user_id r = sid
                                /\ operation_name (row_operation r) = op);
      [| unfold operation_entry in Hop; rewrite Hsp in Hop; exact Hop].
    apply (normalize_present (fun t => is_Some (operation_entry t sid op))
             (fun r => row_user_id r = sid /\ operation_name (row_operation r) = op)).
    - unfold operation_entry. rewrite lookup_empty. intros [? ?]; discriminate.
    - intros r t. apply loop_body_operation. }
  split.
  { intros sid op k. apply (normalize_present (fun t => is_Some (stage_score t sid op k))).
    - unfold stage_score. rewrite lookup_empty. intros [? ?]; discriminate.
    - intros r t. apply loop_body_stage. }
  intros before after r -> Hlater. apply normalize_last_row_wins. exact Hlater.
Qed.

End Normalizer.

(** ** The controller *)

Module Controller.
Import AppContext.
Local Open Scope list_scope.

(** Unfolding the operations down to the state they thread. *)
Ltac unfold_ops :=
  unfold perform, onAuthStateChange, finishQuiz, finishQuiz_callback, startQuiz, deleteUser, updateUser,
    addUser, signUp, logout, login, fetchAllProgressData, fetchAllUsers,
    setQuizResults, setQuizSettings, setView, setCurrentUser, setProgressData,
    setUsers, setIsLoading, modify, get, console_error, call, bind, ret in *.

(** Case analysis on whatever the next piece of the program inspects. *)
Ltac next_case :=
  match goal with
  | |- context [match ?x with _ => _ end] =>
      lazymatch x with
      | context [match _ with _ => _ end] => fail
      | _ => destruct x eqn:?
      end
  end.

Ltac run_ops := unfold_ops; cbn; repeat (next_case; cbn).

Section Facts.

Context {W : Type} (remote : forall q : Request, W -> Reply (Payload q) * W).

(** The guard of [finishQuiz] is on the [currentUser] its render saw.  A
    callback made while nobody, or a user who is not a student, was signed
    in returns without any effect in whatever state it is called: the
    controller state, the backend, the list of issued requests and the
    console are what they were. *)
Lemma finishQuiz_callback_guard (captured : option User) (summary : QuizSummary)
    (m : Machine W) :
  (forall user, captured = Some user -> user_role user <> student) ->
  finishQuiz_callback remote captured summary m = (tt, m).
Proof.
  intros Hnot. unfold finishQuiz_callback.
  destruct captured as [user|]; [|reflexivity].
  destruct (decide (user_role user = student)) as [Hst|Hst]; [|reflexivity].
  exfalso. exact (Hnot user eq_refl Hst).
Qed.

(** So the callback of the latest render does nothing when no student is
    signed in. *)
Lemma fresh_finishQuiz_guard (summary : QuizSummary) (m : Machine W) :
  ~ signed_in_as_student (app m) ->
  finishQuiz remote summary m = (tt, m).
Proof.
  intros Hnot. unfold finishQuiz, get, bind. cbn.
  apply finishQuiz_callback_guard. intros user Hcu Hst.
  apply Hnot. exists user. split; [exact Hcu | exact Hst].
Qed.

(** A callback made while a student was signed in never looks at the
    [currentUser] of the state it is called in: signed out or not, it
    stores the summary, issues the insert for the student it captured
    and moves [view] to the results screen, leaving [currentUser] as it
    finds it. *)
Lemma finishQuiz_callback_of_student (user : User) (summary : QuizSummary)
    (m : Machine W) :
  user_role user = student ->
  let m' := snd (finishQuiz_callback remote (Some user) summary m) in
  view (app m') = results_view
  /\ quizResults (app m') = Some summary
  /\ currentUser (app m') = currentUser (app m)
  /\ exists later, trace m' = trace m ++ ProgressInsert (attempt_row user summary) :: later.
Proof.
  intros Hst. unfold finishQuiz_callback.
  destruct (decide (user_role user = student)) as [_|Hno]; [|contradiction].
  unfold_ops. cbn.
  destruct (remote (ProgressInsert (attempt_row user summary)) (world m))
    as [[[]|e] w] eqn:Hins; cbn.
  - destruct (remote ProgressSelectAll w) as [[rows|e] w'] eqn:Hsel; cbn.
    all: split; [reflexivity|]; split; [reflexivity|]; split; [reflexivity|];
      eexists; rewrite <- app_assoc; reflexivity.
  - split; [reflexivity|]. split; [reflexivity|]. split; [reflexivity|].
    eexists; reflexivity.
Qed.

(** C10. With a student signed in, [finishQuiz summary] always ends with
    [view] on the results screen and [quizResults] holding the summary,
    having issued the insert of the attempt row; when that insert fails,
    no refresh is requested and [progressData] keeps its value. *)
Theorem finishQuiz_reaches_results (summary : QuizSummary) (m : Machine W) (user : User) :
  currentUser (app m) = Some user ->
  user_role user = student ->
  let m' := snd (finishQuiz remote summary m) in
  view (app m') = results_view
  /\ quizResults (app m') = Some summary
  /\ (exists later, trace m' = trace m ++ ProgressInsert (attempt_row user summary) :: later)
  /\ (forall e w,
        remote (ProgressInsert (attempt_row user summary)) (world m) = (Err e, w) ->
        progressData (app m') = progressData (app m)
        /\ trace m' = trace m ++ [ProgressInsert (attempt_row user summary)]
        /\ world m' = w).
Proof.
  intros Hcu Hst. unfold finishQuiz, get, bind at 1. cbn. rewrite Hcu. unfold finishQuiz_callback.
  destruct (decide (user_role user = student)) as [_|Hno]; [|contradiction].
  unfold_ops. cbn.
  destruct (remote (ProgressInsert (attempt_row user summary)) (world m)) as [[[]|e] w] eqn:Hins; cbn.
  - destruct (remote ProgressSelectAll w) as [[rows|e] w'] eqn:Hsel; cbn.
    all: split; [reflexivity|]; split; [reflexivity|]; split;
      [eexists; rewrite <- app_assoc; reflexivity | intros ? ? Heq; discriminate Heq].
  - split; [reflexivity|]. split; [reflexivity|]. split; [eexists; reflexivity|].
    intros e' w'' Heq. injection Heq as -> ->. repeat split.
Qed.

(** C9, as the code has it.  [startQuiz settings] installs the settings
    and moves [view] to the quiz screen; it issues no request and leaves
    every other cell, [quizResults] among them, as it was: a summary left
    by an earlier quiz stays until the next [finishQuiz] replaces it. *)
Theorem startQuiz_keeps_quizResults (settings : QuizSettings) (m : Machine W) :
  let m' := snd (startQuiz settings m) in
  quizSettings (app m') = Some settings
  /\ view (app m') = quiz
  /\ quizResults (app m') = quizResults (app m)
  /\ currentUser (app m') = currentUser (app m)
  /\ users (app m') = users (app m)
  /\ progressData (app m') = progressData (app m)
  /\ isLoading (app m') = isLoading (app m)
  /\ world m' = world m /\ trace m' = trace m /\ console m' = console m.
Proof. cbn. repeat split. Qed.

(** C7. [login] and [logout] only issue their request to the auth
    collaborator and leave the controller state, [currentUser] included,
    untouched; no operation other than the auth-event handler changes
    [currentUser]; the handler sets it to the profile of the session when
    the profile is found, leaves it when the profile is not found, and
    clears it on a null session. *)
Theorem currentUser_written_only_by_auth_handler (m : Machine W) :
  (forall email password,
     app (snd (login remote email password m)) = app m
     /\ trace (snd (login remote email password m))
        = trace m ++ [AuthSignInWithPassword email password])
  /\ (app (snd (logout remote m)) = app m
      /\ trace (snd (logout remote m)) = trace m ++ [AuthSignOut])
  /\ (forall a : Action,
        (forall session, a <> AuthEvent session) ->
        currentUser (app (snd (perform remote a m))) = currentUser (app m))
  /\ (forall sess profile w,
        remote (ProfilesSelectSingle (session_user_id sess)) (world m) = (Ok profile, w) ->
        currentUser (app (snd (onAuthStateChange remote (Some sess) m)))
        = Some (userWithEmail sess profile))
  /\ (forall sess e w,
        remote (ProfilesSelectSingle (session_user_id sess)) (world m) = (Err e, w) ->
        currentUser (app (snd (onAuthStateChange remote (Some sess) m)))
        = currentUser (app m))
  /\ currentUser (app (snd (onAuthStateChange remote None m))) = None.
Proof.
  split; [|split; [|split; [|split; [|split]]]].
  - intros email password. run_ops; split; reflexivity.
  - run_ops; split; reflexivity.
  - intros a Hnot. destruct a as [| | | | | | | | |session]; try (run_ops; congruence).
    exfalso. exact (Hnot session eq_refl).
  - intros sess profile w Hsel. unfold_ops. cbn. rewrite Hsel. cbn.
    repeat (next_case; cbn); reflexivity.
  - intros sess e w Hsel. unfold_ops. cbn. rewrite Hsel. reflexivity.
  - run_ops; reflexivity.
Qed.

(** C8, as the code has it.  When the sign-up of a parent succeeds and
    the child link then fails, [signUp] returns a failure whose message is
    the link-failure prefix followed by the error of the link call, having
    issued the link request once; [deleteUser] issues the profile delete
    and the progress delete once each and then both refreshes, whether or
    not either delete failed, returns nothing, and reports a failed
    progress delete on the console only. *)
Theorem partial_failure_reports (m : Machine W) :
  (forall d newId childId e w1 w2,
     remote (AuthSignUp (data_email d) (data_password d) (data_name d) (data_role d))
       (world m) = (Ok (Some newId), w1) ->
     data_role d = parent ->
     truthy (data_childId d) = Some childId ->
     remote (ProfilesUpdateChild newId childId) w1 = (Err e, w2) ->
     signUp remote d m
     = ({| success := false; message := (link_failure_prefix ++ e)%string |},
        {| app := app m; world := w2;
           trace := trace m ++ [AuthSignUp (data_email d) (data_password d) (data_name d) (data_role d);
                                ProfilesUpdateChild newId childId];
           console := console m |})
     /\ fst (signUp remote d m) <> signUp_success)
  /\ (forall userId,
        trace (snd (deleteUser remote userId m))
        = trace m ++ [ProfilesDelete userId; ProgressDelete userId;
                      ProfilesSelectAll; ProgressSelectAll])
  /\ (forall userId w1 e w2,
        remote (ProfilesDelete userId) (world m) = (Ok tt, w1) ->
        remote (ProgressDelete userId) w1 = (Err e, w2) ->
        fst (deleteUser remote userId m) = tt
        /\ exists later,
             console (snd (deleteUser remote userId m))
             = console m ++ ("Error deleting progress: " ++ e)%string :: later).
Proof.
  split; [|split].
  - intros d newId childId e w1 w2 Hsign Hrole Hchild Hlink.
    assert (Heq : signUp remote d m
      = ({| success := false; message := (link_failure_prefix ++ e)%string |},
         {| app := app m; world := w2;
            trace := trace m ++ [AuthSignUp (data_email d) (data_password d) (data_name d) (data_role d);
                                 ProfilesUpdateChild newId childId];
            console := console m |})).
    { unfold_ops. cbn. rewrite Hsign. cbn. rewrite Hrole, Hchild. cbn.
      rewrite Hlink. cbn. rewrite <- app_assoc. reflexivity. }
    split; [exact Heq|]. rewrite Heq. cbn. unfold signUp_success. intros H. discriminate H.
  - intros userId. run_ops; rewrite <- ?app_assoc; reflexivity.
  - intros userId w1 e w2 Hprof Hprog. split; [destruct (fst _); reflexivity|].
    unfold_ops. cbn. rewrite Hprof. cbn. rewrite Hprog. cbn.
    repeat (next_case; cbn); rewrite <- ?app_assoc; eexists; reflexivity.
Qed.

(** C5, as the code has it.  The controller's [deleteUser] never looks at
    [currentUser]: for any id, the signed-in user's own included, it
    issues the profile delete, the progress delete and the two refreshes.
    The guard is the dashboard's: the row of the signed-in user has no
    delete button, so a click in the table either does nothing or deletes
    a user with another id. *)
Theorem deleteUser_guarded_in_dashboard_only (m : Machine W) :
  (forall userId,
     trace (snd (deleteUser remote userId m))
     = trace m ++ [ProfilesDelete userId; ProgressDelete userId;
                   ProfilesSelectAll; ProgressSelectAll])
  /\ (forall me i confirmed,
        currentUser (app m) = Some me ->
        AdminDashboard.clickDelete remote i confirmed m = (tt, m)
        \/ exists user,
             users (app m) !! i = Some user
             /\ user_id user <> user_id me
             /\ AdminDashboard.clickDelete remote i confirmed m
                = deleteUser remote (user_id user) m).
Proof.
  split.
  - intros userId. run_ops; rewrite <- ?app_assoc; reflexivity.
  - intros me i confirmed Hme. unfold AdminDashboard.clickDelete.
    destruct (users (app m) !! i) as [user|] eqn:Hrow; [|left; reflexivity].
    rewrite Hme. unfold AdminDashboard.offersDelete.
    destruct (String.eqb (user_id user) (user_id me)) eqn:Hid; cbn; [left; reflexivity|].
    unfold AdminDashboard.handleDelete. destruct confirmed; [|left; reflexivity].
    right. exists user. split; [reflexivity|]. split; [|reflexivity].
    apply String.eqb_neq. exact Hid.
Qed.

End Facts.

End Controller.

(** ** The quiz screen *)

Module Session.
Import QuizScreen.
Local Open Scope list_scope.

Example parseInt_number_input :
  parseInt "12" = Num 12 /\ parseInt "-3" = Num (-3) /\ parseInt "1.5" = Num 1
  /\ parseInt " 7" = Num 7 /\ parseInt "-" = NaN.
Proof. repeat split. Qed.

Example strict_equal_null : strict_equal None 0 = false /\ strict_equal (Some NaN) 0 = false.
Proof. split; reflexivity. Qed.

Ltac open_screen sc H :=
  destruct sc as [qs0 [q0 idx0 ua0 rs0 ans0 fb0 st0] to0 fin0];
  destruct H as (Hqs & Hidx & Hrs & Hans & [q1 Hq] & Hto & Hfin);
  cbn in Hqs, Hidx, Hrs, Hans, Hq, Hto, Hfin; subst.

Lemma mount_effect_awaits (qs : QuizSettings) (t0 now : Z) (r1 r2 : Q) :
  awaiting qs 1 [] (step (mount (Some qs) t0) (MountEffect now r1 r2)).
Proof. cbn. repeat split. eexists. reflexivity. Qed.

(** Below the last question a round records one result and shows the
    next question. *)
Lemma round_continues (qs : QuizSettings) (k : Z) (rs : list QuizResult) (sc : Screen)
    (rd : Round) :
  awaiting qs k rs sc -> k < TOTAL_QUESTIONS ->
  exists r, awaiting qs (k + 1) (rs ++ [r]) (run sc (round_events rd)).
Proof.
  intros H Hk. open_screen sc H.
  assert (Hge : (k >=? TOTAL_QUESTIONS) = false) by (rewrite Z.geb_leb; apply Z.leb_gt; exact Hk).
  unfold run, round_events. destruct (submitted rd); cbn; rewrite Hge; cbn;
    eexists; repeat split; eexists; reflexivity.
Qed.

(** From the last question on, a round records one result and the
    delayed call hands over the results of the render before it. *)
Lemma round_finishes (qs : QuizSettings) (k : Z) (rs : list QuizResult) (sc : Screen)
    (rd : Round) :
  awaiting qs k rs sc -> TOTAL_QUESTIONS <= k ->
  exists r,
    finished (run sc (round_events rd)) = [summarize qs rs]
    /\ results (state (run sc (round_events rd))) = rs ++ [r].
Proof.
  intros H Hk. open_screen sc H.
  assert (Hge : (k >=? TOTAL_QUESTIONS) = true) by (rewrite Z.geb_leb; apply Z.leb_le; exact Hk).
  unfold run, round_events. destruct (submitted rd); cbn; rewrite Hge; cbn;
    eexists; split; reflexivity.
Qed.

Lemma rounds_continue (qs : QuizSettings) (rounds : list Round) :
  forall (k : Z) (rs : list QuizResult) (sc : Screen),
    awaiting qs k rs sc ->
    k + Z.of_nat (length rounds) <= TOTAL_QUESTIONS ->
    exists rs',
      length rs' = length rounds
      /\ awaiting qs (k + Z.of_nat (length rounds)) (rs ++ rs')
           (run sc (concat (map round_events rounds))).
Proof.
  induction rounds as [|rd rounds IH]; intros k rs sc H Hk.
  - exists []. cbn. rewrite Z.add_0_r, app_nil_r. split; [reflexivity | exact H].
  - cbn [length] in Hk. rewrite Nat2Z.inj_succ in Hk.
    destruct (round_continues qs k rs sc rd H ltac:(lia)) as [r Hr].
    destruct (IH (k + 1) (rs ++ [r]) _ Hr ltac:(lia)) as (rs' & Hlen & Hrs').
    exists (r :: rs'). split; [cbn; rewrite Hlen; reflexivity|].
    cbn [map concat length]. unfold run in *. rewrite fold_left_app.
    rewrite Nat2Z.inj_succ.
    replace (k + Z.succ (Z.of_nat (length rounds))) with (k + 1 + Z.of_nat (length rounds)) by lia.
    rewrite <- app_assoc in Hrs'. exact Hrs'.
Qed.

Lemma summarize_score_bound (qs : QuizSettings) (rs : list QuizResult) :
  (score (summarize qs rs) <= inject_Z (Z.of_nat (length rs)) * 10)%Q.
Proof.
  unfold summarize; cbn [score].
  assert (Hc : (length (List.filter isCorrect rs) <= length rs)%nat) by apply List.filter_length_le.
  unfold Qle, Qdiv, Qmult, Qinv, inject_Z, TOTAL_QUESTIONS; cbn. lia.
Qed.

(** What a session of ten rounds hands to [finishQuiz]: one summary, made
    from the first nine of the ten recorded results. *)
Theorem session_summary_leaves_out_last_result (qs : QuizSettings) (t0 now : Z) (r1 r2 : Q)
    (rounds : list Round) :
  length rounds = 10%nat ->
  exists summary,
    finished (session qs t0 now r1 r2 rounds) = [summary]
    /\ length (results (state (session qs t0 now r1 r2 rounds))) = 10%nat
    /\ Types.results summary = take 9 (results (state (session qs t0 now r1 r2 rounds)))
    /\ length (Types.results summary) = 9%nat
    /\ (score summary <= 90)%Q.
Proof.
  induction rounds as [|rd first _] using rev_ind; intros Hlen; [discriminate Hlen|].
  rewrite length_app in Hlen. cbn in Hlen.
  assert (Hfirst : length first = 9%nat) by lia.
  unfold session, run. cbn [fold_left].
  rewrite map_app, concat_app, fold_left_app. cbn [map concat]. rewrite app_nil_r.
  destruct (rounds_continue qs first 1 [] _ (mount_effect_awaits qs t0 now r1 r2))
    as (rs & Hrs & Haw); [rewrite Hfirst; unfold TOTAL_QUESTIONS; lia|].
  rewrite Hfirst in Haw. cbn [app] in Haw. change (1 + Z.of_nat 9) with 10 in Haw.
  destruct (round_finishes qs 10 rs _ rd Haw ltac:(unfold TOTAL_QUESTIONS; lia)) as (r & Hfin & Hres).
  unfold run in *. exists (summarize qs rs). rewrite Hfin, Hres.
  split; [reflexivity|]. split; [rewrite length_app; cbn; lia|].
  split; [cbn [Types.results summarize]; rewrite take_app_length'; [reflexivity | lia]|].
  split; [cbn; lia|].
  eapply Qle_trans; [apply summarize_score_bound|].
  rewrite Hrs, Hfirst. cbn. discriminate.
Qed.

(** C1 on a concrete session.  Ten stage-1 addition questions, each
    answered with the exact sum within the timer: all ten recorded results
    are correct, yet the summary handed to [finishQuiz] holds nine results
    and a score of 90, not 100. *)
Theorem all_correct_session_scores_90 :
  length (results (state Samples.all_correct_session)) = 10%nat
  /\ Forall (fun r => isCorrect r = true /\ (timeTaken r <= 8)%Q)
       (results (state Samples.all_correct_session))
  /\ exists summary,
       finished Samples.all_correct_session = [summary]
       /\ length (Types.results summary) = 9%nat
       /\ (score summary == 90)%Q
       /\ ~ (score summary == 100)%Q
       /\ (totalTime summary == 22)%Q.
Proof.
  split; [vm_compute; reflexivity|]. split.
  { vm_compute. repeat (constructor; [split; [reflexivity | discriminate]|]). constructor. }
  eexists. split; [vm_compute; reflexivity|].
  split; [reflexivity|]. split; [vm_compute; reflexivity|].
  split; [vm_compute; discriminate | vm_compute; reflexivity].
Qed.

End Session.

(** ** The code on concrete inputs *)

Module Examples.
Import AppContext InMemory.
Local Open Scope list_scope.

(** C5 fails as stated: with the admin [admin-1] signed in, the
    controller's [deleteUser "admin-1"] is carried out; the profile is
    deleted from the store and gone from the refreshed user list. *)
Lemma deleteUser_deletes_signed_in_admin :
  (user_id <$> currentUser (app admin_signed_in) = Some "admin-1"
   /\ user_role <$> currentUser (app admin_signed_in) = Some admin)
  /\ trace (snd (deleteUser serve "admin-1" admin_signed_in))
     = trace admin_signed_in ++ [ProfilesDelete "admin-1"; ProgressDelete "admin-1";
                                 ProfilesSelectAll; ProgressSelectAll]
  /\ profiles (world (snd (deleteUser serve "admin-1" admin_signed_in))) = [sam; tess]
  /\ users (app (snd (deleteUser serve "admin-1" admin_signed_in))) = map as_User [sam; tess].
Proof. vm_compute. repeat split. Qed.

(** C9 fails as stated: after a first quiz has left its summary,
    [startQuiz] for the next quiz leaves that summary in [quizResults]. *)
Lemma startQuiz_leaves_earlier_summary :
  quizResults (app (snd (startQuiz harder_sums after_first_quiz))) = Some a_summary
  /\ quizResults (app (snd (startQuiz harder_sums after_first_quiz))) <> None.
Proof. split; [vm_compute; reflexivity | vm_compute; discriminate]. Qed.

(** C8 fails as stated for [deleteUser]: when the profile delete succeeds
    and the progress delete fails, the caller gets the same (empty) result
    as from a run in which both deletes succeed; the failure is on the
    console only. *)
Lemma deleteUser_partial_failure_returns_nothing :
  let partial := deleteUser serve "student-1" (with_failing progress_delete_down after_first_quiz) in
  let clean := deleteUser serve "student-1" after_first_quiz in
  profiles (world (snd partial)) = [ada; tess]
  /\ length (progress (world (snd partial))) = 1%nat
  /\ progress (world (snd clean)) = []
  /\ console (snd partial) = ["Error deleting progress: unavailable"]
  /\ console (snd clean) = []
  /\ fst partial = fst clean.
Proof. vm_compute. repeat split. Qed.

(** C6, refuted by the code.  Sam answers the tenth question and signs
    out before the delayed call of that answer runs.  When the call runs,
    nobody is signed in and [view] is on the login screen; yet the
    [finishQuiz] it reaches is the callback of the render in which Sam
    was signed in, its guard passes, and the call is no no-op: the
    attempt is inserted into the progress store, [quizResults] is set
    and [view] moves to the results screen, with [currentUser] still
    absent. *)
Theorem finishQuiz_runs_after_sign_out :
  let before := QuizFlow.controller Scenarios.signed_out_early in
  let after := QuizFlow.controller Scenarios.late_finish in
  let summary := QuizScreen.summarize easy_sums Scenarios.first_nine in
  (currentUser (app before) = None
   /\ ~ signed_in_as_student (app before)
   /\ view (app before) = login_view
   /\ quizResults (app before) = None
   /\ progress (world before) = [])
  /\ (currentUser (app after) = None
      /\ view (app after) = results_view
      /\ quizResults (app after) = Some summary
      /\ progress (world after) = [attempt_row (userWithEmail (session_of sam) sam) summary]
      /\ QuizFlow.inserts (trace after)
         = [attempt_row (userWithEmail (session_of sam) sam) summary]).
Proof.
  intros before after summary.
  assert (Hcu : currentUser (app before) = None) by (vm_compute; reflexivity).
  split.
  - split; [exact Hcu|]. split.
    + intros (u & Hu & _). rewrite Hcu in Hu. discriminate Hu.
    + split; [|split]; vm_compute; reflexivity.
  - split; [|split; [|split; [|split]]]; vm_compute; reflexivity.
Qed.

End Examples.

(** ** Recorded times *)

Module Timing.
Import QuizScreen.
Local Open Scope list_scope.

(** C4, as the code has it.  When a question is shown at time [shown]
    and then answered or timed out at time [now], whatever was typed in
    between, exactly one result is recorded and its [timeTaken] is the
    elapsed time [(now - shown) / 1000] in seconds, with no upper limit:
    it is above [settings.timer] whenever the elapsed time is. *)
Theorem timeTaken_is_elapsed_time (sc0 : Screen) (c : NextQuestion) (qs : QuizSettings)
    (shown now : Z) (r1 r2 : Q) (value : string) (timedOut : bool) :
  nq_quizSettings c = Some qs ->
  nq_questionIndex c < TOTAL_QUESTIONS ->
  let answered :=
    run (nextQuestion c shown r1 r2 sc0)
        [Change value; if timedOut then TimeUp now else SubmitForm now] in
  exists r,
    results (state answered) = results (state sc0) ++ [r]
    /\ timeTaken r = (inject_Z (now - shown) / 1000)%Q
    /\ (timer qs * 1000 < now - shown -> (inject_Z (timer qs) < timeTaken r)%Q).
Proof.
  intros Hqs Hidx.
  assert (Hge : (nq_questionIndex c >=? TOTAL_QUESTIONS) = false)
    by (rewrite Z.geb_leb; apply Z.leb_gt; exact Hidx).
  unfold run, nextQuestion. rewrite Hqs, Hge.
  destruct timedOut; cbn; eexists; (split; [reflexivity|]); (split; [reflexivity|]);
    intros Hlate; unfold Qlt, Qdiv, Qmult, Qinv, inject_Z; cbn; lia.
Qed.

Lemma timeTaken_is_elapsed_time_witness :
  let sc0 := mount (Some InMemory.easy_sums) 0 in
  let answered :=
    run (nextQuestion (render_nextQuestion sc0) 0 Samples.draw_a Samples.draw_b sc0)
        [Change "7"; TimeUp 8004] in
  exists r,
    results (state answered) = results (state sc0) ++ [r]
    /\ timeTaken r = (inject_Z (8004 - 0) / 1000)%Q
    /\ (timer InMemory.easy_sums * 1000 < 8004 - 0
        -> (inject_Z (timer InMemory.easy_sums) < timeTaken r)%Q).
Proof.
  apply (timeTaken_is_elapsed_time (mount (Some InMemory.easy_sums) 0)
           (render_nextQuestion (mount (Some InMemory.easy_sums) 0)) InMemory.easy_sums
           0 8004 Samples.draw_a Samples.draw_b "7" true).
  - reflexivity.
  - reflexivity.
Defined.

(** C4 fails as stated: a question that times out on the timer's last
    tick, 8004 ms after it appeared with an 8-second timer, is recorded
    with [userAnswer] null and [timeTaken] 8.004, above the timer. *)
Lemma timed_out_result_exceeds_timer :
  exists r,
    results (state Samples.timed_out_question) = [r]
    /\ Types.userAnswer r = None
    /\ isCorrect r = false
    /\ (timeTaken r == 8004 # 1000)%Q
    /\ ~ (timeTaken r <= inject_Z (timer InMemory.easy_sums))%Q.
Proof.
  eexists. split; [vm_compute; reflexivity|].
  split; [reflexivity|]. split; [reflexivity|].
  split; [vm_compute; reflexivity|]. vm_compute. intros H. apply H. reflexivity.
Qed.

End Timing.

(** ** The theorems at concrete inputs *)

Module Instances.
Import AppContext InMemory Controller.
Local Open Scope list_scope.

(** A student's [finishQuiz] while inserts fail: the results screen is
    reached and the progress cache is kept. *)
Lemma finishQuiz_reaches_results_witness :
  let m := with_failing progress_insert_down student_signed_in in
  let m' := snd (finishQuiz serve a_summary m) in
  (currentUser (app m) = Some (userWithEmail (session_of sam) sam)
   /\ user_role (userWithEmail (session_of sam) sam) = student)
  /\ view (app m') = results_view
  /\ quizResults (app m') = Some a_summary
  /\ progressData (app m') = progressData (app m).
Proof.
  intros m m'.
  assert (Hcu : currentUser (app m) = Some (userWithEmail (session_of sam) sam))
    by reflexivity.
  assert (Hst : user_role (userWithEmail (session_of sam) sam) = student) by reflexivity.
  destruct (finishQuiz_reaches_results serve a_summary m _ Hcu Hst) as (Hv & Hq & _ & Hfail).
  destruct (Hfail unavailable (world m) eq_refl) as (Hp & _).
  split; [split; assumption|]. split; [exact Hv|]. split; [exact Hq | exact Hp].
Defined.

(** A login request leaves [currentUser] empty; the auth event for Sam's
    session sets it. *)
Lemma currentUser_written_only_by_auth_handler_witness :
  currentUser (app (snd (perform serve (DoLogin "student-1@school.example" "pw") (boot school))))
  = None
  /\ currentUser (app (snd (onAuthStateChange serve (Some (session_of sam)) (boot school))))
     = Some (userWithEmail (session_of sam) sam).
Proof.
  destruct (currentUser_written_only_by_auth_handler serve (boot school))
    as (_ & _ & Hother & Hfound & _).
  split.
  - rewrite (Hother (DoLogin "student-1@school.example" "pw"));
      [reflexivity | intros s H; discriminate H].
  - apply (Hfound (session_of sam) sam school). reflexivity.
Defined.

(** Pat's sign-up links to a child that does not exist; deleting Sam
    while progress deletes fail. *)
Lemma partial_failure_reports_witness :
  fst (signUp serve pat (boot school))
  = {| success := false;
       message := (link_failure_prefix ++ "foreign key violation")%string |}
  /\ exists later,
       console (snd (deleteUser serve "student-1"
                       (with_failing progress_delete_down after_first_quiz)))
       = "Error deleting progress: unavailable" :: later.
Proof.
  destruct (partial_failure_reports serve (boot school)) as (Hsign & _).
  destruct (partial_failure_reports serve (with_failing progress_delete_down after_first_quiz))
    as (_ & _ & Hdel).
  split.
  - edestruct (Hsign pat) as [Heq _];
      [reflexivity | reflexivity | reflexivity | reflexivity |].
    rewrite Heq. reflexivity.
  - edestruct (Hdel "student-1") as [_ Hconsole]; [reflexivity | reflexivity |].
    exact Hconsole.
Defined.

(** The admin's own row has no delete action; the controller would
    carry the delete out. *)
Lemma deleteUser_guarded_in_dashboard_only_witness :
  trace (snd (deleteUser serve "admin-1" admin_signed_in))
  = trace admin_signed_in ++ [ProfilesDelete "admin-1"; ProgressDelete "admin-1";
                              ProfilesSelectAll; ProgressSelectAll]
  /\ (AdminDashboard.clickDelete serve 0 true admin_signed_in = (tt, admin_signed_in)
      \/ exists user,
           users (app admin_signed_in) !! 0%nat = Some user
           /\ user_id user <> "admin-1"
           /\ AdminDashboard.clickDelete serve 0 true admin_signed_in
              = deleteUser serve (user_id user) admin_signed_in).
Proof.
  destruct (deleteUser_guarded_in_dashboard_only serve admin_signed_in) as [Hdel Hclick].
  split; [apply Hdel|].
  apply (Hclick (userWithEmail (session_of ada) ada) 0%nat true eq_refl).
Defined.

(** Sam's retry of stage 1 replaces the first score. *)
Lemma normalize_last_write_wins_witness :
  stage_score (normalize [first_try; second_stage; retry]) "student-1" "addition" "stage1"
  = Some 90%Q
  /\ is_Some (normalize [first_try; second_stage; retry] !! "student-1").
Proof.
  destruct (Normalizer.normalize_last_write_wins [first_try; second_stage; retry])
    as (_ & _ & Hstudent & _ & _ & Hlast).
  split.
  - apply (Hlast [first_try; second_stage] [] retry eq_refl).
    intros r' Hin. inversion Hin.
  - apply Hstudent. exists retry. split; [|reflexivity].
    apply elem_of_cons; right. apply elem_of_cons; right. apply elem_of_cons; left. reflexivity.
Defined.

End Instances.

(** ** More on the question generator *)

Module GeneratorFacts.
Import QuizService.

Lemma Qfloor_unique (x : Q) (z : Z) :
  Qfloor x = z <-> (inject_Z z <= x)%Q /\ (x < inject_Z (z + 1))%Q.
Proof.
  split.
  - intros <-. split; [apply Qfloor_le | apply Qlt_floor].
  - intros [Hlo Hhi].
    assert (H1 : z <= Qfloor x).
    { rewrite <- (Qfloor_Z z). apply Qfloor_resp_le. exact Hlo. }
    assert (H2 : Qfloor x < z + 1).
    { rewrite Zlt_Qlt. eapply Qle_lt_trans; [apply Qfloor_le | exact Hhi]. }
    lia.
Qed.

Lemma scaled_le (a r n : Q) :
  (0 < n)%Q -> (a / n <= r)%Q <-> (a <= r * n)%Q.
Proof.
  intros Hn. rewrite <- (Qmult_le_r _ _ n Hn).
  rewrite Qmult_comm, Qmult_div_r; [reflexivity|].
  intros H0. rewrite H0 in Hn. discriminate Hn.
Qed.

Lemma scaled_ge (a r n : Q) :
  (0 < n)%Q -> (r <= a / n)%Q <-> (r * n <= a)%Q.
Proof.
  intros Hn. rewrite <- (Qmult_le_r _ _ n Hn).
  rewrite (Qmult_comm (a / n)), Qmult_div_r; [reflexivity|].
  intros H0. rewrite H0 in Hn. discriminate Hn.
Qed.

(** The draws in the middle half of the [k]-th of the [n = max - min + 1]
    equal shares of the unit interval give [k], and a draw that gives [k]
    is within a quarter of a share of the [k]-th share; for [k] in the
    range, the middle half of its share consists of draws of
    [Math.random()].  So every value of the range comes out, each for at
    least half of its share of the draws.  The quarter of a share at
    either end is left open: there the rounding of the product, which
    [getRandomInt] above does not have, decides. *)
Theorem getRandomInt_even_spread (r : Q) (min max k : Z) :
  - 2 ^ 31 <= min -> min <= max -> max <= 2 ^ 31 ->
  let n := inject_Z (max - min + 1) in
  let j := inject_Z (k - min) in
  (((j + (1 # 4)) / n <= r)%Q -> (r <= (j + (3 # 4)) / n)%Q ->
   getRandomInt r min max = k)
  /\ (getRandomInt r min max = k ->
      ((j - (1 # 4)) / n <= r)%Q /\ (r <= (j + (5 # 4)) / n)%Q)
  /\ (min <= k <= max ->
      ((j + (1 # 4)) / n <= r)%Q -> (r <= (j + (3 # 4)) / n)%Q -> unit_draw r).
Proof.
  intros _ Hle _ n j.
  assert (Hn : (0 < n)%Q).
  { unfold n. change 0%Q with (inject_Z 0). rewrite <- Zlt_Qlt. lia. }
  assert (Hnext : (inject_Z (k - min + 1) == j + 1)%Q).
  { unfold j. rewrite inject_Z_plus. reflexivity. }
  assert (Hfloor : getRandomInt r min max = k
                   <-> (j <= r * n)%Q /\ (r * n < j + 1)%Q).
  { unfold getRandomInt. fold n. rewrite <- Hnext. unfold j.
    rewrite <- (Qfloor_unique (r * n) (k - min)). lia. }
  rewrite !(scaled_le _ _ _ Hn), !(scaled_ge _ _ _ Hn).
  split; [|split].
  - intros Hlo Hhi. apply Hfloor. split; lra.
  - intros Hk. apply Hfloor in Hk. split; lra.
  - intros Hk Hlo Hhi.
    assert (Hj0 : (0 <= j)%Q).
    { unfold j. change 0%Q with (inject_Z 0). rewrite <- Zle_Qle. lia. }
    assert (Hjn : (j + 1 <= n)%Q).
    { rewrite <- Hnext. unfold n. rewrite <- Zle_Qle. lia. }
    split.
    + apply Qle_trans with ((j + (1 # 4)) / n)%Q.
      * apply Qle_shift_div_l; [exact Hn | lra].
      * apply scaled_le; [exact Hn | exact Hlo].
    + apply Qle_lt_trans with ((j + (3 # 4)) / n)%Q.
      * apply scaled_ge; [exact Hn | exact Hhi].
      * apply Qlt_shift_div_r; [exact Hn | lra].
Qed.

(** The draw 0.75 on the range from 1 to 10 gives 8. *)
Lemma getRandomInt_even_spread_witness :
  getRandomInt (3 # 4) 1 10 = 8 /\ unit_draw (3 # 4).
Proof.
  destruct (getRandomInt_even_spread (3 # 4) 1 10 8) as (Hmid & _ & Hunit); [lia..|].
  assert (Hlo : ((inject_Z (8 - 1) + (1 # 4)) / inject_Z (10 - 1 + 1) <= 3 # 4)%Q)
    by discriminate.
  assert (Hhi : (3 # 4 <= (inject_Z (8 - 1) + (3 # 4)) / inject_Z (10 - 1 + 1))%Q)
    by discriminate.
  split; [exact (Hmid Hlo Hhi) | apply (Hunit ltac:(lia) Hlo Hhi)].
Defined.

(** Whatever the operation and whatever the stage number, in or out of
    the offered stages, the answer of a generated question is between 0
    and 100. *)
Theorem generateQuestion_answer_0_to_100 (op : Operation) (stage : Z) (r1 r2 : Q) :
  unit_draw r1 -> unit_draw r2 ->
  0 <= answer (generateQuestion op stage r1 r2) <= 100.
Proof.
  intros H1 H2.
  destruct op; unfold generateQuestion;
    destruct (stage =? 1); [| destruct (stage =? 2) | | | | destruct (stage =? 2) ];
    cbn [answer].
  all: repeat match goal with
       | |- context [getRandomInt ?r ?lo ?hi] =>
           lazymatch goal with
           | _ : lo <= getRandomInt r lo hi <= hi |- _ => fail
           | _ => idtac
           end;
           let H := fresh "G" in
           assert (H : lo <= getRandomInt r lo hi <= hi)
             by (apply Generator.getRandomInt_range; [assumption | lia])
       end.
  all: nia.
Qed.

Lemma generateQuestion_answer_0_to_100_witness :
  0 <= answer (generateQuestion multiplication 7 (99 # 100) (99 # 100)) <= 100.
Proof.
  apply (generateQuestion_answer_0_to_100 multiplication 7 (99 # 100) (99 # 100)).
  - split; [discriminate | reflexivity].
  - split; [discriminate | reflexivity].
Defined.

End GeneratorFacts.

(** ** More on the progress normalizer *)

Module NormalizerFacts.
Import AppContext.
Local Open Scope list_scope.

(** What one iteration leaves under a student id. *)
Lemma loop_body_lookup (r : ProgressRow) (t : ProgressData) (sid : string) :
  loop_body r t !! sid
  = if decide (row_user_id r = sid)
    then Some (<[operation_name (row_operation r) :=
                  <[stage_key (row_stage r) := row_score r]>
                    (default ∅ (default ∅ (t !! sid) !! operation_name (row_operation r)))]>
                (default ∅ (t !! sid)))
    else t !! sid.
Proof.
  rewrite Normalizer.loop_body_insert.
  destruct (decide (row_user_id r = sid)) as [<-|Hne].
  - apply lookup_insert_eq.
  - apply lookup_insert_ne. exact Hne.
Qed.

(** A student's part of the index is built from that student's records
    alone: records of other students, wherever they stand in the list, do
    not change it. *)
Theorem normalize_student_independent (rows : list ProgressRow) (sid : string) :
  normalize rows !! sid
  = normalize (filter (fun r => row_user_id r = sid) rows) !! sid.
Proof.
  induction rows as [|r rows IH] using rev_ind; [reflexivity|].
  rewrite filter_app, filter_cons, filter_nil.
  rewrite Normalizer.normalize_snoc, loop_body_lookup.
  destruct (decide (row_user_id r = sid)) as [Heq|Hne].
  - rewrite Normalizer.normalize_snoc, loop_body_lookup.
    rewrite decide_True by exact Heq. rewrite IH. reflexivity.
  - rewrite app_nil_r. exact IH.
Qed.

(** Two iterations for different (student, operation, stage) triples can
    be swapped. *)
Lemma loop_body_swap (r1 r2 : ProgressRow) (t : ProgressData) :
  triple r1 <> triple r2 ->
  loop_body r1 (loop_body r2 t) = loop_body r2 (loop_body r1 t).
Proof.
  intros Hne. apply map_eq. intros sid. rewrite !loop_body_lookup.
  destruct (decide (row_user_id r1 = sid)) as [H1|H1];
    destruct (decide (row_user_id r2 = sid)) as [H2|H2]; simpl;
    try reflexivity.
  f_equal. set (sp := default ∅ (t !! sid)).
  destruct (decide (operation_name (row_operation r1) = operation_name (row_operation r2)))
    as [Hop|Hop].
  - rewrite Hop, !lookup_insert_eq. simpl. rewrite !insert_insert_eq.
    f_equal. apply insert_insert_ne. intros Hk. apply Hne. unfold triple.
    apply Normalizer.operation_name_inj in Hop. apply Normalizer.stage_key_inj in Hk.
    congruence.
  - rewrite lookup_insert_ne by congruence.
    rewrite (lookup_insert_ne _ (operation_name (row_operation r1))) by congruence.
    apply insert_insert_ne. exact Hop.
Qed.

Lemma normalize_foldr (rows : list ProgressRow) :
  normalize rows = foldr loop_body ∅ (reverse rows).
Proof.
  induction rows as [|r rows IH] using rev_ind; [reflexivity|].
  rewrite Normalizer.normalize_snoc, reverse_app, IH. reflexivity.
Qed.

(** Without two records for the same (student, operation, stage), the
    records can be processed in any order. *)
Lemma normalize_permutation (rows rows' : list ProgressRow) :
  NoDup (triple <$> rows) ->
  rows ≡ₚ rows' ->
  normalize rows = normalize rows'.
Proof.
  intros Hnd Hperm. rewrite !normalize_foldr.
  apply (foldr_permutation eq loop_body ∅).
  - intros j1 a1 j2 a2 t Hj H1 H2. apply loop_body_swap. intros Heq.
    apply Hj.
    assert (Hnd' : NoDup (triple <$> reverse rows))
      by (rewrite reverse_Permutation; exact Hnd).
    apply (NoDup_lookup _ j1 j2 (triple a1) Hnd').
    + rewrite list_lookup_fmap, H1. reflexivity.
    + rewrite list_lookup_fmap, H2, Heq. reflexivity.
  - rewrite !reverse_Permutation. exact Hperm.
Qed.

(** What is read from the index depends on the order of the fetched
    records only among attempts at the same (student, operation, stage):
    when no two records share a triple, every reordering of the list
    gives an index with the same student keys, the same operation keys
    under each student, and the same score, or none, under every stage
    key.  The order in which [Object.keys] and [Object.entries] list the
    keys of the index is the order of insertion, which does follow the
    records; the maps used here do not record it and nothing is said
    about it. *)
Theorem normalize_order_irrelevant (rows rows' : list ProgressRow) :
  NoDup (triple <$> rows) ->
  rows ≡ₚ rows' ->
  forall studentId operation stageKey : string,
    (is_Some (normalize rows !! studentId) <-> is_Some (normalize rows' !! studentId))
    /\ (is_Some (operation_entry (normalize rows) studentId operation)
        <-> is_Some (operation_entry (normalize rows') studentId operation))
    /\ stage_score (normalize rows) studentId operation stageKey
       = stage_score (normalize rows') studentId operation stageKey.
Proof.
  intros Hnd Hperm studentId operation stageKey.
  rewrite (normalize_permutation rows rows' Hnd Hperm).
  split; [reflexivity|]. split; reflexivity.
Qed.

Section WithRemote.

Context {W : Type} (remote : forall q : Request, W -> Reply (Payload q) * W).

(** When a student's [finishQuiz] succeeds and the refreshed list has the
    new attempt after every other attempt at the same (student, operation,
    stage), the progress cache shows the new score for that stage. *)
Theorem finishQuiz_shows_new_score (summary : QuizSummary) (m : Machine W) (user : User)
    (before after : list ProgressRow) (w1 w2 : W) :
  currentUser (app m) = Some user ->
  user_role user = student ->
  remote (ProgressInsert (attempt_row user summary)) (world m) = (Ok tt, w1) ->
  remote ProgressSelectAll w1 = (Ok (before ++ attempt_row user summary :: after), w2) ->
  (forall r, r ∈ after -> triple r <> triple (attempt_row user summary)) ->
  stage_score (progressData (app (snd (finishQuiz remote summary m))))
    (user_id user) (operation_name (operation (settings summary)))
    (stage_key (stage (settings summary)))
  = Some (score summary).
Proof.
  intros Hcu Hst Hins Hsel Hlater.
  unfold finishQuiz, get, bind at 1. cbn. rewrite Hcu. unfold finishQuiz_callback.
  destruct (decide (user_role user = student)) as [_|Hno]; [|contradiction].
  Controller.unfold_ops. cbn. rewrite Hins. cbn. rewrite Hsel. cbn.
  apply (Normalizer.normalize_last_row_wins before after (attempt_row user summary) Hlater).
Qed.

End WithRemote.

End NormalizerFacts.

(** ** Navigation *)

Module Navigation.
Import AppContext QuizFlow.
Local Open Scope list_scope.

Section WithRemote.

Context {W : Type} (remote : forall q : Request, W -> Reply (Payload q) * W).

Lemma perform_cells_present (a : Action) (m : Machine W) :
  ui_action a -> cells_present (app m) -> cells_present (app (snd (perform remote a m))).
Proof.
  unfold cells_present. intros Hui [Hq Hr].
  destruct a as [v| | | | | | | | |session]; cbn in Hui.
  - destruct Hui as [-> | [-> | [-> | ->]]]; cbn; split; intros H; discriminate H.
  - Controller.run_ops; split; assumption.
  - Controller.run_ops; split; assumption.
  - Controller.run_ops; split; assumption.
  - Controller.run_ops; split; assumption.
  - Controller.run_ops; split; assumption.
  - Controller.run_ops; split; assumption.
  - cbn. split; [eauto | intros H; discriminate H].
  - Controller.run_ops; try (split; [intros H; discriminate H | eauto]); split; assumption.
  - Controller.run_ops; try (split; intros H; discriminate H); split; assumption.
Qed.

Lemma perform_all_cells_present (actions : list Action) (m : Machine W) :
  Forall ui_action actions -> cells_present (app m) ->
  cells_present (app (perform_all remote actions m)).
Proof.
  revert m. induction actions as [|a actions IH]; intros m Hui Hinv; [exact Hinv|].
  inversion Hui as [|? ? Ha Hrest]; subst. cbn.
  apply IH; [exact Hrest|]. apply perform_cells_present; assumption.
Qed.

(** From a fresh provider, through any auth events and any calls of the
    controller's operations in which [setView] gets only the targets the
    screens pass to it, [view] is on the quiz screen only while
    [quizSettings] is present and on the results screen only while
    [quizResults] is present; so for a signed-in user [App] shows the quiz
    on [quiz] and the results on [results], never the fallback screens. *)
Theorem fallback_screens_unreachable (w : W) (actions : list Action) :
  Forall ui_action actions ->
  let s := app (perform_all remote actions (fresh w)) in
  (view s = quiz -> is_Some (quizSettings s))
  /\ (view s = results_view -> is_Some (quizResults s))
  /\ (is_Some (currentUser s) ->
      (view s = quiz -> App.renderContent s = App.ShowQuiz)
      /\ (view s = results_view -> App.renderContent s = App.ShowResults)).
Proof.
  intros Hui s.
  assert (Hinv : cells_present s).
  { apply perform_all_cells_present; [exact Hui|].
    split; intros H; discriminate H. }
  destruct Hinv as [Hq Hr]. split; [exact Hq|]. split; [exact Hr|].
  intros [u Hu]. unfold App.renderContent. rewrite Hu. split; intros Hv; rewrite Hv.
  - destruct (Hq Hv) as [qs ->]. reflexivity.
  - destruct (Hr Hv) as [sm ->]. reflexivity.
Qed.

(** Operations other than the auth handler leave the identity and the
    loading flag alone. *)
Lemma perform_keeps_identity (a : Action) (m : Machine W) :
  not_auth_event a ->
  currentUser (app (snd (perform remote a m))) = currentUser (app m)
  /\ isLoading (app (snd (perform remote a m))) = isLoading (app m).
Proof.
  intros Ha. destruct a as [| | | | | | | | |session]; [..|destruct Ha];
    Controller.run_ops; split; congruence.
Qed.

Lemma perform_all_keeps_identity (actions : list Action) (m : Machine W) :
  Forall not_auth_event actions ->
  currentUser (app (perform_all remote actions m)) = currentUser (app m)
  /\ isLoading (app (perform_all remote actions m)) = isLoading (app m).
Proof.
  revert m. induction actions as [|a actions IH]; intros m Hall; [split; reflexivity|].
  inversion Hall as [|? ? Ha Hrest]; subst.
  unfold perform_all in *. cbn [fold_left].
  destruct (IH (snd (perform remote a m)) Hrest) as [H1 H2]. rewrite H1, H2.
  apply perform_keeps_identity. exact Ha.
Qed.

(** After a sign-out event, whatever the state before it and whatever
    operations are called until the next auth event, [App] shows the
    login or the sign-up screen, without the header. *)
Theorem signed_out_sees_login_or_signUp (m : Machine W) (actions : list Action) :
  Forall not_auth_event actions ->
  let s := app (perform_all remote actions (snd (onAuthStateChange remote None m))) in
  App.AppContent s = (false, App.ShowLogin) \/ App.AppContent s = (false, App.ShowSignUp).
Proof.
  intros Hall s.
  destruct (perform_all_keeps_identity actions (snd (onAuthStateChange remote None m)) Hall)
    as [Hcu Hload].
  fold s in Hcu, Hload. cbn in Hcu, Hload.
  unfold App.AppContent, App.renderContent. rewrite Hcu, Hload.
  destruct (view s); auto.
Qed.

Lemma perform_no_childId (a : Action) (m : Machine W) :
  no_childId (app m) -> no_childId (app (snd (perform remote a m))).
Proof.
  unfold no_childId. intros Hinv u Hu.
  destruct a as [| | | | | | | | |session].
  1-9: match type of Hu with
       | currentUser (app (snd (perform _ ?a ?m0))) = _ =>
           rewrite (proj1 (perform_keeps_identity a m0 I)) in Hu; exact (Hinv u Hu)
       end.
  revert Hu. Controller.run_ops; intros Hu; try (injection Hu as <-; reflexivity);
    try discriminate Hu; apply Hinv; exact Hu.
Qed.

(** The user the auth handler installs is built from a [profiles] row,
    which spells the link [child_id]; it has no [childId].  So from a
    fresh provider, after any auth events and any calls of the
    controller's operations, the parent dashboard finds no linked child,
    whatever the backend stores. *)
Theorem parent_dashboard_never_finds_child (w : W) (actions : list Action) :
  Dashboards.ParentDashboard (app (perform_all remote actions (fresh w)))
  = Dashboards.NoChildLinked.
Proof.
  assert (Hinv : forall (m : Machine W),
            no_childId (app m) -> no_childId (app (perform_all remote actions m))).
  { induction actions as [|a actions IH]; intros m Hm; [exact Hm|].
    unfold perform_all in *. cbn [fold_left]. apply IH. apply perform_no_childId. exact Hm. }
  specialize (Hinv (fresh w) ltac:(intros u Hu; discriminate Hu)).
  unfold Dashboards.ParentDashboard.
  destruct (currentUser _) as [u|] eqn:Hu; [|reflexivity].
  rewrite (Hinv u Hu). reflexivity.
Qed.

End WithRemote.

End Navigation.

(** ** The countdown *)

Module TimerFacts.
Import Timer.

Lemma ticks_running (n : nat) :
  forall t : Z,
    1 <= t ->
    ticks n {| timeLeft := t; ticking := true |}
    = ({| timeLeft := Z.max 0 (t - Z.of_nat n);
          ticking := negb (t <=? Z.of_nat n) |},
       if t <=? Z.of_nat n then 1%nat else 0%nat).
Proof.
  induction n as [|n IH]; intros t Ht.
  - cbn [ticks]. rewrite Z.sub_0_r, Z.max_r by lia.
    destruct (t <=? Z.of_nat 0) eqn:E; [apply Z.leb_le in E; cbn in E; lia | reflexivity].
  - cbn [ticks]. unfold tick. cbn [ticking timeLeft].
    destruct (t <=? 1) eqn:E1.
    + apply Z.leb_le in E1. assert (t = 1) by lia. subst t.
      assert (Hstop : forall k s, ticking s = false -> ticks k s = (s, 0%nat)).
      { clear. induction k as [|k IHk]; intros s Hs; [reflexivity|].
        cbn [ticks]. unfold tick. rewrite Hs, (IHk s Hs). reflexivity. }
      rewrite Hstop by reflexivity.
      replace (1 <=? Z.of_nat (S n)) with true by (symmetry; apply Z.leb_le; lia).
      rewrite Z.max_l by lia. reflexivity.
    + apply Z.leb_gt in E1. rewrite IH by lia.
      replace (t - 1 - Z.of_nat n) with (t - Z.of_nat (S n)) by lia.
      replace (t - 1 <=? Z.of_nat n) with (t <=? Z.of_nat (S n)); [reflexivity|].
      destruct (t <=? Z.of_nat (S n)) eqn:E2; symmetry.
      * apply Z.leb_le in E2. apply Z.leb_le. lia.
      * apply Z.leb_gt in E2. apply Z.leb_gt. lia.
Qed.

(** Started with a time of at least one second, the timer calls
    [onTimeUp] exactly once, on the tick that brings the time left to
    zero, and never before; the time left after [n] ticks is the initial
    time less [n], not below zero, so the bar stays between 0 and 100
    percent.  Started with a time of zero or less, it never calls
    [onTimeUp]. *)
Theorem timer_fires_exactly_once (initialTime : Z) (n : nat) :
  (1 <= initialTime ->
   snd (ticks n (start initialTime))
   = (if initialTime <=? Z.of_nat n then 1%nat else 0%nat)
   /\ timeLeft (fst (ticks n (start initialTime))) = Z.max 0 (initialTime - Z.of_nat n)
   /\ (0 <= percentage initialTime (fst (ticks n (start initialTime))) <= 100)%Q)
  /\ (initialTime <= 0 ->
      ticks n (start initialTime) = (start initialTime, 0%nat)).
Proof.
  split.
  - intros Ht. unfold start.
    replace (0 <? initialTime) with true by (symmetry; apply Z.ltb_lt; lia).
    rewrite ticks_running by exact Ht. cbn [fst snd timeLeft].
    split; [reflexivity|]. split; [reflexivity|].
    unfold percentage. cbn [timeLeft].
    assert (Hpos : (0 < inject_Z initialTime)%Q).
    { change 0%Q with (inject_Z 0). rewrite <- Zlt_Qlt. lia. }
    split.
    + apply Qmult_le_0_compat; [|discriminate].
      apply Qle_shift_div_l; [exact Hpos|]. rewrite Qmult_0_l.
      change 0%Q with (inject_Z 0). rewrite <- Zle_Qle. lia.
    + apply Qle_trans with (1 * 100)%Q; [|discriminate].
      apply Qmult_le_compat_r; [|discriminate].
      apply Qle_shift_div_r; [exact Hpos|]. rewrite Qmult_1_l, <- Zle_Qle. lia.
  - intros Ht. unfold start.
    replace (0 <? initialTime) with false by (symmetry; apply Z.ltb_ge; lia).
    induction n as [|n IH]; [reflexivity|].
    cbn [ticks]. unfold tick at 1. cbn [ticking]. rewrite IH. reflexivity.
Qed.

Lemma timer_fires_exactly_once_witness :
  snd (ticks 12 (start 8)) = 1%nat
  /\ snd (ticks 7 (start 8)) = 0%nat
  /\ ticks 30 (start 0) = (start 0, 0%nat).
Proof.
  destruct (timer_fires_exactly_once 8 12) as [H12 _].
  destruct (timer_fires_exactly_once 8 7) as [H7 _].
  destruct (timer_fires_exactly_once 0 30) as [_ H0].
  split; [apply H12; lia|]. split; [apply H7; lia | apply H0; lia].
Defined.

End TimerFacts.

(** ** The quiz selection screen *)

Module SelectionFacts.
Import Constants SelectQuizScreen.

Lemma click_offered (s : State) (c : Click) : offered s -> offered (click s c).
Proof.
  intros [Hstage Htimer]. destruct c as [i|i|i]; unfold click.
  - destruct (OPERATION_KEYS !! i) as [key|] eqn:E; [|split; assumption].
    split; [destruct key; cbn; lia | exact Htimer].
  - destruct (stage_buttons s !! i) as [st|] eqn:E; [|split; assumption].
    apply list_elem_of_lookup_2, list_elem_of_In in E.
    split; [|exact Htimer]. cbn [stage operation].
    unfold stage_buttons in E. destruct (operation s); cbn in E; cbn; intuition lia.
  - destruct (TIMER_OPTIONS !! i) as [t|] eqn:E; [|split; assumption].
    apply list_elem_of_lookup_2, list_elem_of_In in E.
    split; [exact Hstage | exact E].
Qed.

(** Whatever buttons are clicked in whatever order before Start, the
    settings handed to [startQuiz] name a stage the selected operation
    has (changing the operation resets the stage to 1) and one of the
    offered timers, which is positive. *)
Theorem chosen_settings_are_offered (clicks : list Click) :
  1 <= Types.stage (chosen clicks)
       <= Z.of_nat (stages (OPERATIONS (Types.operation (chosen clicks))))
  /\ In (Types.timer (chosen clicks)) TIMER_OPTIONS
  /\ 0 < Types.timer (chosen clicks).
Proof.
  assert (H : offered (fold_left click clicks initial)).
  { assert (Hinit : offered initial) by (split; [cbn; lia | cbn; tauto]).
    revert Hinit. generalize initial.
    induction clicks as [|c clicks IH]; intros s Hs; [exact Hs|].
    cbn. apply IH. apply click_offered. exact Hs. }
  destruct H as [Hstage Htimer]. unfold chosen, handleStartQuiz. cbn.
  split; [exact Hstage|]. split; [exact Htimer|].
  cbn in Htimer. destruct Htimer as [<-|[<-|[<-|[]]]]; lia.
Qed.

End SelectionFacts.

(** ** The dashboards *)

Module DashboardFacts.
Import AppContext Constants Dashboards.
Local Open Scope list_scope.

Lemma positive_score_spec (v : Q) : positive_score v = true <-> (0 < v)%Q.
Proof.
  unfold positive_score. rewrite negb_true_iff. split.
  - intros H. apply Qnot_le_lt. intros Hle. apply Qle_bool_iff in Hle. congruence.
  - intros Hlt. destruct (Qle_bool v 0) eqn:E; [|reflexivity].
    apply Qle_bool_iff in E. exfalso. exact (Qlt_not_le _ _ Hlt E).
Qed.

Lemma inject_succ (n : nat) : (inject_Z (Z.of_nat (S n)) == inject_Z (Z.of_nat n) + 1)%Q.
Proof. rewrite Nat2Z.inj_succ. unfold Z.succ. rewrite inject_Z_plus. reflexivity. Qed.

(** The sum of scores between 0 and 100, against the number of scores and
    the number of scores above zero. *)
Lemma sum_bounds (l : list Q) :
  Forall (fun v => (0 <= v)%Q /\ (v <= 100)%Q) l ->
  forall a : Q,
    (a <= fold_left Qplus l a)%Q
    /\ (fold_left Qplus l a
        <= a + 100 * inject_Z (Z.of_nat (length (List.filter positive_score l))))%Q
    /\ (length (List.filter positive_score l) <= length l)%nat
    /\ (length (List.filter positive_score l) = length l ->
        (0 < length l)%nat -> (a < fold_left Qplus l a)%Q).
Proof.
  induction 1 as [|v l [Hv0 Hv100] _ IH]; intros a; cbn [fold_left List.filter length].
  - change (inject_Z (Z.of_nat 0)) with 0%Q.
    split; [lra|]. split; [lra|]. split; [lia|]. intros _ H. lia.
  - destruct (IH (a + v)%Q) as (Hlo & Hhi & Hcnt & Hall).
    destruct (positive_score v) eqn:Hp; cbn [length].
    + apply positive_score_spec in Hp.
      split; [lra|]. split; [rewrite inject_succ; lra|]. split; [lia|].
      intros Heq _. lra.
    + assert (Hz : (v <= 0)%Q).
      { apply Qnot_lt_le. intros Hlt. apply positive_score_spec in Hlt. congruence. }
      split; [lra|]. split; [lra|]. split; [lia|]. intros Heq. lia.
Qed.

Lemma values_bounded (opProgress : gmap string Q) :
  (forall k v, opProgress !! k = Some v -> (0 <= v)%Q /\ (v <= 100)%Q) ->
  Forall (fun v => (0 <= v)%Q /\ (v <= 100)%Q) (values opProgress).
Proof.
  intros H. unfold values. apply Forall_fmap, Forall_forall. intros [k v] Hin.
  apply elem_of_map_to_list in Hin. exact (H k v Hin).
Qed.

Lemma values_length (opProgress : gmap string Q) :
  length (values opProgress) = size opProgress.
Proof. unfold values. rewrite length_fmap. apply length_map_to_list. Qed.

(** Which scores the two counts see: the teacher's count leaves out the
    scores that are zero, and a positive score makes the total
    positive. *)
Lemma positive_counts (l : list Q) :
  Forall (fun v => (0 <= v)%Q /\ (v <= 100)%Q) l ->
  ((length (List.filter positive_score l) < length l)%nat
   <-> Exists (fun v => (v == 0)%Q) l)
  /\ ((0 < length (List.filter positive_score l))%nat
      <-> Exists (fun v => (0 < v)%Q) l)
  /\ ((0 < length (List.filter positive_score l))%nat ->
      forall a : Q, (a < fold_left Qplus l a)%Q).
Proof.
  induction 1 as [|v l [Hv0 Hv100] Hl IH]; cbn [fold_left List.filter length].
  - split; [|split].
    + split; [lia | intros H; inversion H].
    + split; [lia | intros H; inversion H].
    + lia.
  - destruct IH as (IHzero & IHpos & IHsum).
    pose proof (List.filter_length_le positive_score l) as Hle.
    destruct (positive_score v) eqn:Hp; cbn [length].
    + apply positive_score_spec in Hp.
      split; [|split].
      * split.
        -- intros Hlt. apply Exists_cons_tl, IHzero. lia.
        -- intros Hex. inversion Hex as [? ? Hz|? ? Hex']; subst.
           ++ lra.
           ++ apply IHzero in Hex'. lia.
      * split; [intros _; apply Exists_cons_hd; exact Hp | lia].
      * intros _ a. destruct (sum_bounds l Hl (a + v)%Q) as (Hlo & _). lra.
    + assert (Hz : (v == 0)%Q).
      { assert (v <= 0)%Q; [|lra].
        apply Qnot_lt_le. intros Hlt. apply positive_score_spec in Hlt. congruence. }
      split; [|split].
      * split; [intros _; apply Exists_cons_hd; exact Hz | lia].
      * split.
        -- intros Hlt. apply Exists_cons_tl, IHpos. exact Hlt.
        -- intros Hex. inversion Hex as [? ? Hv|? ? Hex']; subst; [lra|].
           apply IHpos. exact Hex'.
      * intros Hpos a.
        apply Qle_lt_trans with (a + v)%Q; [lra|]. apply IHsum. exact Hpos.
Qed.

Lemma Exists_values (P : Q -> Prop) (opProgress : gmap string Q) :
  Exists P (values opProgress) <-> exists k v, opProgress !! k = Some v /\ P v.
Proof.
  rewrite Exists_exists. unfold values. split.
  - intros (v & Hin & Hv). apply list_elem_of_fmap in Hin as ([k v'] & -> & Hin).
    apply elem_of_map_to_list in Hin. exists k, v'. split; [exact Hin | exact Hv].
  - intros (k & v & Hkv & Hv). exists v. split; [|exact Hv].
    apply list_elem_of_fmap. exists (k, v). split; [reflexivity|].
    apply elem_of_map_to_list. exact Hkv.
Qed.

(** With every stage score between 0 and 100, the average shown to the
    student and the parent is between 0 and 100, and the average shown to
    the teacher, which divides by the number of stages with a score above
    zero, is between that average and 100.  The teacher's average is the
    larger one exactly when some stage has score zero and some stage a
    positive score; otherwise the two are equal. *)
Theorem averages_between_0_and_100 (opProgress : gmap string Q) :
  (forall k v, opProgress !! k = Some v -> (0 <= v)%Q /\ (v <= 100)%Q) ->
  (0 <= averageScore opProgress)%Q
  /\ (averageScore opProgress <= teacherAverageScore opProgress)%Q
  /\ (teacherAverageScore opProgress <= 100)%Q
  /\ ((averageScore opProgress < teacherAverageScore opProgress)%Q
      <-> (exists k v, opProgress !! k = Some v /\ (v == 0)%Q)
          /\ (exists k v, opProgress !! k = Some v /\ (0 < v)%Q)).
Proof.
  intros Hb. rewrite <- !Exists_values. apply values_bounded in Hb.
  destruct (sum_bounds _ Hb 0%Q) as (Hlo & Hhi & Hcnt & _).
  destruct (positive_counts _ Hb) as (Hzero & Hpos & Hsum).
  rewrite <- Hzero, <- Hpos.
  unfold averageScore, teacherAverageScore, totalScore.
  rewrite <- values_length.
  set (total := fold_left Qplus (values opProgress) 0%Q) in *.
  set (n := length (values opProgress)) in *.
  set (p := length (List.filter positive_score (values opProgress))) in *.
  assert (Hn : (0 < n)%nat -> (0 < inject_Z (Z.of_nat n))%Q).
  { intros H. change 0%Q with (inject_Z 0). rewrite <- Zlt_Qlt. lia. }
  assert (Hp : (0 < p)%nat -> (0 < inject_Z (Z.of_nat p))%Q).
  { intros H. change 0%Q with (inject_Z 0). rewrite <- Zlt_Qlt. lia. }
  assert (Hpn : (inject_Z (Z.of_nat p) <= inject_Z (Z.of_nat n))%Q).
  { rewrite <- Zle_Qle. lia. }
  destruct (Nat.ltb_spec 0 n) as [En|En]; destruct (Nat.ltb_spec 0 p) as [Ep|Ep].
  - specialize (Hn En). specialize (Hp Ep).
    assert (Htotal : (0 < total)%Q) by exact (Hsum Ep 0%Q).
    assert (Hback : (total / inject_Z (Z.of_nat n) * inject_Z (Z.of_nat n) == total)%Q).
    { rewrite Qmult_comm. apply Qmult_div_r.
      intros H0. rewrite H0 in Hn. discriminate Hn. }
    assert (Hx : (0 < total / inject_Z (Z.of_nat n))%Q)
      by (apply Qlt_shift_div_l; [exact Hn | lra]).
    split; [apply Qlt_le_weak; exact Hx|].
    split; [|split; [apply Qle_shift_div_r; [exact Hp | lra]|]].
    + apply Qle_shift_div_l; [exact Hp|]. rewrite <- Hback at 2.
      apply Qmult_le_l; [exact Hx | exact Hpn].
    + split.
      * intros Hlt. split; [|exact Ep].
        destruct (Nat.lt_ge_cases p n) as [Hpn'|Hpn']; [exact Hpn'|].
        exfalso. assert (Heq : p = n) by lia. rewrite Heq in Hlt.
        exact (Qlt_irrefl _ Hlt).
      * intros [Hpn' _].
        assert (HPN : (inject_Z (Z.of_nat p) < inject_Z (Z.of_nat n))%Q).
        { rewrite <- Zlt_Qlt. lia. }
        apply Qlt_shift_div_l; [exact Hp|].
        apply Qlt_le_trans with (total / inject_Z (Z.of_nat n) * inject_Z (Z.of_nat n))%Q;
          [|rewrite Hback; apply Qle_refl].
        apply Qmult_lt_l; [exact Hx | exact HPN].
  - specialize (Hn En). assert (p = 0%nat) by lia.
    assert (Htot : (total == 0)%Q).
    { replace p with 0%nat in Hhi by lia.
      change (inject_Z (Z.of_nat 0)) with 0%Q in Hhi. lra. }
    assert (Havg : (total / inject_Z (Z.of_nat n) <= 0)%Q)
      by (apply Qle_shift_div_r; [exact Hn | lra]).
    assert (Havg0 : (0 <= total / inject_Z (Z.of_nat n))%Q)
      by (apply Qle_shift_div_l; [exact Hn | lra]).
    split; [exact Havg0|].
    split; [exact Havg|]. split; [discriminate|].
    split; [intros Hlt; exfalso; exact (Qlt_not_le _ _ Hlt Havg0) | intros [_ Hpos']; lia].
  - lia.
  - split; [discriminate|]. split; [discriminate|]. split; [discriminate|].
    split; [intros Hlt; discriminate Hlt | intros [_ Hpos']; lia].
Qed.

Lemma student_key_present (rows : list ProgressRow) (sid : string) :
  is_Some (normalize rows !! sid) <-> exists r, r ∈ rows /\ row_user_id r = sid.
Proof.
  apply (Normalizer.normalize_present (fun t => is_Some (t !! sid))).
  - rewrite lookup_empty. intros [? ?]; discriminate.
  - intros r t. apply Normalizer.loop_body_student.
Qed.

Lemma operation_key_present (rows : list ProgressRow) (sid : string) (op : Operation) :
  is_Some (progressOf (normalize rows) sid !! operation_name op)
  <-> exists r, r ∈ rows /\ row_user_id r = sid /\ row_operation r = op.
Proof.
  assert (Hentry : progressOf (normalize rows) sid !! operation_name op
                   = operation_entry (normalize rows) sid (operation_name op)).
  { unfold progressOf, operation_entry.
    destruct (normalize rows !! sid); [reflexivity | apply lookup_empty]. }
  rewrite Hentry.
  rewrite (Normalizer.normalize_present
             (fun t => is_Some (operation_entry t sid (operation_name op)))
             (fun r => row_user_id r = sid
                       /\ operation_name (row_operation r) = operation_name op)).
  - split; intros (r & Hin & Hid & Hop); exists r; (split; [exact Hin|]); (split; [exact Hid|]).
    + apply Normalizer.operation_name_inj. exact Hop.
    + rewrite Hop. reflexivity.
  - unfold operation_entry. rewrite lookup_empty. intros [? ?]; discriminate.
  - intros r t. apply Normalizer.loop_body_operation.
Qed.

(** With the progress cache built from the fetched rows, the student
    dashboard says that no quiz was completed exactly when no row belongs
    to the signed-in student, and the card of an operation says that
    there are no attempts exactly when no row of the student is for that
    operation. *)
Theorem student_dashboard_reflects_rows (s : AppState) (user : User)
    (rows : list ProgressRow) :
  currentUser s = Some user ->
  progressData s = normalize rows ->
  (StudentDashboard s = NoQuizzesYet
   <-> ~ exists r, r ∈ rows /\ row_user_id r = user_id user)
  /\ (forall op,
        operationCard (progressOf (progressData s) (user_id user)) op
        = NoAttemptsYet (name (OPERATIONS op))
        <-> ~ exists r, r ∈ rows /\ row_user_id r = user_id user /\ row_operation r = op).
Proof.
  intros Hcu Hdata. unfold StudentDashboard. rewrite Hcu, Hdata. split.
  - destruct (Nat.ltb_spec 0 (size (progressOf (normalize rows) (user_id user)))) as [Hpos|Hzero].
    + split; [intros H; discriminate H|]. intros Hnone. exfalso.
      assert (Hne : progressOf (normalize rows) (user_id user) <> ∅)
        by (intros Hempty; rewrite Hempty, map_size_empty in Hpos; lia).
      apply Hne. unfold progressOf.
      destruct (normalize rows !! user_id user) as [sp|] eqn:Hsp; [|reflexivity].
      exfalso. apply Hnone. apply student_key_present. rewrite Hsp. eauto.
    + split; [|reflexivity]. intros _ (r & Hin & Hid).
      assert (Hsome : is_Some (progressOf (normalize rows) (user_id user)
                                 !! operation_name (row_operation r)))
        by (apply operation_key_present; eauto).
      assert (Hempty : progressOf (normalize rows) (user_id user) = ∅)
        by (apply map_size_empty_iff; lia).
      rewrite Hempty, lookup_empty in Hsome. destruct Hsome as [? H]; discriminate H.
  - intros op. rewrite <- operation_key_present. unfold operationCard.
    destruct (progressOf (normalize rows) (user_id user) !! operation_name op) as [pr|].
    + split; [intros H; discriminate H | intros H; exfalso; apply H; eauto].
    + split; [intros _ [? H]; discriminate H | reflexivity].
Qed.

End DashboardFacts.

(** ** More on the quiz screen *)

Module QuizFacts.
Import QuizScreen QuizPhases.
Local Open Scope list_scope.

(** Reading the digits of a decimal numeral. *)
Lemma leading_digits_acc (d : Decimal.uint) :
  forall p : positive,
    leading_digits (Some (Z.pos p)) (NilEmpty.string_of_uint d)
    = Some (Z.pos (Pos.of_uint_acc d p)).
Proof.
  induction d as [|d IH|d IH|d IH|d IH|d IH|d IH|d IH|d IH|d IH|d IH]; intros p;
    cbn [NilEmpty.string_of_uint leading_digits Pos.of_uint_acc]; [reflexivity|..];
    match goal with
    | |- context [digit_value ?c] =>
        let v := eval vm_compute in (digit_value c) in
        change (digit_value c) with v; cbv iota beta;
        change (default 0 (Some (Z.pos p))) with (Z.pos p)
    end;
    rewrite <- IH; f_equal; f_equal; lia.
Qed.

Lemma leading_digits_numeral (d : Decimal.uint) :
  d <> Decimal.Nil ->
  leading_digits None (NilEmpty.string_of_uint d) = Some (Z.of_N (Pos.of_uint d)).
Proof.
  assert (Hzero : forall d acc, (acc = None \/ acc = Some 0) -> d <> Decimal.Nil ->
            leading_digits acc (NilEmpty.string_of_uint d) = Some (Z.of_N (Pos.of_uint d))).
  { clear. induction d as [|d IH|d IH|d IH|d IH|d IH|d IH|d IH|d IH|d IH|d IH];
      intros acc Hacc Hd; [contradiction|..];
      cbn [NilEmpty.string_of_uint leading_digits Pos.of_uint];
      match goal with
      | |- context [digit_value ?c] =>
          let v := eval vm_compute in (digit_value c) in
          change (digit_value c) with v; cbv iota beta
      end;
      (replace (default 0 acc) with 0 by (destruct Hacc as [->| ->]; reflexivity));
      cbn [Z.mul Z.add].
    - destruct d; [reflexivity|..]; apply IH; auto; discriminate.
    - apply leading_digits_acc.
    - apply leading_digits_acc.
    - apply leading_digits_acc.
    - apply leading_digits_acc.
    - apply leading_digits_acc.
    - apply leading_digits_acc.
    - apply leading_digits_acc.
    - apply leading_digits_acc.
    - apply leading_digits_acc. }
  intros Hd. apply Hzero; auto.
Qed.

Lemma parseInt_numeral (d : Decimal.uint) :
  d <> Decimal.Nil ->
  parseInt (NilEmpty.string_of_uint d) = Num (Z.of_N (Pos.of_uint d))
  /\ parseInt (String "-" (NilEmpty.string_of_uint d)) = Num (- Z.of_N (Pos.of_uint d)).
Proof.
  intros Hd. pose proof (leading_digits_numeral d Hd) as Hdigits.
  assert (Hwhite : forall c rest,
            is_white_space c = false -> trim_start (String c rest) = String c rest)
    by (intros c rest Hc; cbn [trim_start]; rewrite Hc; reflexivity).
  split.
  - unfold parseInt.
    destruct d; [contradiction|..]; cbn [NilEmpty.string_of_uint] in *;
      rewrite Hwhite by reflexivity; cbv iota beta zeta;
      rewrite Hdigits; f_equal; try lia.
  - unfold parseInt. rewrite Hwhite by reflexivity. cbv iota beta zeta.
    rewrite Hdigits. f_equal; try lia.
Qed.

(** [parseInt] reads back what the template literal prints. *)
Lemma parseInt_show (z : Z) : parseInt (show z) = Num z.
Proof.
  unfold show. destruct z as [|p|p]; [reflexivity| |]; cbn [Z.to_int NilEmpty.string_of_int].
  - destruct (parseInt_numeral (Pos.to_uint p) (Unsigned.to_uint_nonnil p)) as [H _].
    rewrite H, Unsigned.of_to. reflexivity.
  - destruct (parseInt_numeral (Pos.to_uint p) (Unsigned.to_uint_nonnil p)) as [_ H].
    rewrite H, Unsigned.of_to. reflexivity.
Qed.

Lemma show_nonempty (z : Z) : show z <> "".
Proof.
  intros H. pose proof (parseInt_show z) as Hp. rewrite H in Hp. discriminate Hp.
Qed.

(** How an answer to the question on screen is recorded, for a question
    whose answer is a safe integer.  Typing the answer as the question's
    text would print it and submitting records it as correct; a time-up
    records a null answer as incorrect, whatever was typed; a submitted
    text that does not parse to the answer adds one result, marked
    incorrect, whose [userAnswer] is the parsed number when that is [NaN]
    or a safe integer (beyond the safe integers JavaScript records the
    nearest double, which is not stated here); and submitting the empty
    field is the same as a time-up. *)
Theorem answers_are_marked (sc : Screen) (q : Question) (now : Z) :
  isAnswered (state sc) = false ->
  question (state sc) = Some q ->
  Z.abs (answer q) <= MAX_SAFE_INTEGER ->
  results (state (run sc [Change (show (answer q)); SubmitForm now]))
  = results (state sc)
    ++ [ {| Types.question := q; Types.userAnswer := Some (Num (answer q));
            isCorrect := true; timeTaken := elapsed sc now |} ]
  /\ (forall typed,
        results (state (run sc [Change typed; TimeUp now]))
        = results (state sc)
          ++ [ {| Types.question := q; Types.userAnswer := None;
                  isCorrect := false; timeTaken := elapsed sc now |} ])
  /\ (forall typed,
        typed <> "" -> parseInt typed <> Num (answer q) ->
        let recorded := results (state (run sc [Change typed; SubmitForm now])) in
        length recorded = S (length (results (state sc)))
        /\ isCorrect <$> last recorded = Some false
        /\ (read_exactly (parseInt typed) ->
            recorded
            = results (state sc)
              ++ [ {| Types.question := q; Types.userAnswer := Some (parseInt typed);
                      isCorrect := false; timeTaken := elapsed sc now |} ]))
  /\ run sc [Change ""; SubmitForm now] = run sc [Change ""; TimeUp now].
Proof.
  intros Hans Hq _.
  destruct sc as [qs0 [q0 idx0 ua0 rs0 ans0 fb0 st0] to0 fin0]. cbn in Hans, Hq. subst.
  unfold elapsed. cbn. split; [|split; [|split]].
  - destruct (decide (show (answer q) = "")) as [He|_]; [destruct (show_nonempty _ He)|].
    cbn. rewrite parseInt_show. cbn. rewrite Z.eqb_refl. reflexivity.
  - intros typed. reflexivity.
  - intros typed Hne Hwrong.
    destruct (decide (typed = "")) as [He|_]; [contradiction|]. cbn.
    assert (Hmark : match parseInt typed with NaN => false | Num z => z =? answer q end
                    = false).
    { destruct (parseInt typed) as [|z] eqn:Hp; [reflexivity|].
      apply Z.eqb_neq. intros Hz. subst z. contradiction. }
    rewrite Hmark. split; [|split].
    + rewrite length_app. cbn. lia.
    + rewrite last_snoc. reflexivity.
    + intros _. reflexivity.
  - reflexivity.
Qed.

Lemma answers_are_marked_witness :
  let sc := step (mount (Some InMemory.easy_sums) 0) (MountEffect 0 Samples.draw_a Samples.draw_b) in
  results (state (run sc [Change (show 7); SubmitForm 2000]))
  = [ {| Types.question := {| text := "3 + 4 = ?"; answer := 7 |};
         Types.userAnswer := Some (Num 7);
         isCorrect := true; timeTaken := elapsed sc 2000 |} ]
  /\ results (state (run sc [Change "12.5"; SubmitForm 2000]))
     = [ {| Types.question := {| text := "3 + 4 = ?"; answer := 7 |};
            Types.userAnswer := Some (Num 12);
            isCorrect := false; timeTaken := elapsed sc 2000 |} ].
Proof.
  intros sc.
  assert (Hsafe : Z.abs 7 <= MAX_SAFE_INTEGER) by (vm_compute; discriminate).
  destruct (answers_are_marked sc {| text := "3 + 4 = ?"; answer := 7 |} 2000
              eq_refl eq_refl Hsafe) as (Hright & _ & Hwrong & _).
  split; [exact Hright|].
  assert (Hne : "12.5" <> "") by discriminate.
  assert (Hparse : parseInt "12.5" <> Num 7) by (vm_compute; discriminate).
  assert (Hexact : read_exactly (parseInt "12.5")) by (vm_compute; discriminate).
  destruct (Hwrong "12.5" Hne Hparse) as (_ & _ & Hrec).
  exact (Hrec Hexact).
Defined.




End QuizFacts.

(** ** The forms *)

Module FormFacts.
Import AppContext.
Local Open Scope list_scope.

Section WithRemote.

Context {W : Type} (remote : forall q : Request, W -> Reply (Payload q) * W).

(** The sign-up form sends nothing when a parent has selected no child
    or the password is empty, and shows an error.  Otherwise it issues
    the sign-up request; for a role other than parent that is the only
    request, even when a child is still selected in the form's state; for
    a parent whose account is created, the link request for the selected
    child follows. *)
Theorem handleSignUp_requests (f : SignUpScreen.Form) (m : Machine W) :
  ((SignUpScreen.role f = parent /\ SignUpScreen.childId f = ""
    \/ SignUpScreen.password f = "") ->
   snd (SignUpScreen.handleSignUp remote f m) = m
   /\ SignUpScreen.isError (fst (SignUpScreen.handleSignUp remote f m)) = true)
  /\ (~ (SignUpScreen.role f = parent /\ SignUpScreen.childId f = "") ->
      SignUpScreen.password f <> "" ->
      (SignUpScreen.role f <> parent ->
       trace (snd (SignUpScreen.handleSignUp remote f m)) = trace m ++ [SignUpScreen.signUp_request f])
      /\ (SignUpScreen.role f = parent ->
          forall newId w1,
            remote (SignUpScreen.signUp_request f) (world m) = (Ok (Some newId), w1) ->
            trace (snd (SignUpScreen.handleSignUp remote f m))
            = trace m ++ [SignUpScreen.signUp_request f;
                          ProfilesUpdateChild newId (SignUpScreen.childId f)])).
Proof.
  unfold SignUpScreen.handleSignUp, SignUpScreen.signUp_request. split.
  - intros Hbad.
    destruct (decide (SignUpScreen.role f = parent /\ SignUpScreen.childId f = ""))
      as [_|Hno]; [split; reflexivity|].
    destruct Hbad as [Hbad|Hpw]; [contradiction|].
    destruct (decide (SignUpScreen.password f = "")) as [_|Hpw']; [split; reflexivity|].
    contradiction.
  - intros Hparent Hpw.
    destruct (decide (SignUpScreen.role f = parent /\ SignUpScreen.childId f = ""))
      as [Hyes|_]; [contradiction|].
    destruct (decide (SignUpScreen.password f = "")) as [Hyes|_]; [contradiction|].
    split.
    + intros Hrole. unfold SignUpScreen.userData.
      destruct (decide (SignUpScreen.role f = parent)) as [Hyes|_]; [contradiction|].
      Controller.unfold_ops. cbn.
      destruct (remote _ (world m)) as [[[newId|]|e] w1]; cbn;
        try reflexivity; destruct (SignUpScreen.role f); reflexivity.
    + intros Hrole newId w1 Hsign. unfold SignUpScreen.userData.
      destruct (decide (SignUpScreen.role f = parent)) as [_|Hno]; [|contradiction].
      Controller.unfold_ops. cbn. rewrite Hsign. cbn. rewrite Hrole.
      destruct (SignUpScreen.childId f) as [|c rest] eqn:Hc;
        [exfalso; apply Hparent; split; [exact Hrole | reflexivity]|].
      cbn.
      destruct (remote (ProfilesUpdateChild _ _) _) as [[[]|e] w2];
        cbn; rewrite <- app_assoc; reflexivity.
Qed.

(** The admin's form calls [onComplete] exactly when it ends without an
    error.  Adding a user with an empty password sends nothing.  Editing
    sends one profile update, with the id of the edited user, the name,
    the role and the child link of the form (the email field is not
    sent), and refreshes the user list only after a successful update.
    Adding a user who is not a parent, or a parent with no child
    selected, sends the sign-up request and never a link request. *)
Theorem handleSubmit_requests (userToEdit : option User) (f : UserManagementForm.Form)
    (m : Machine W) :
  let outcome := UserManagementForm.handleSubmit remote userToEdit f m in
  snd (fst outcome) = negb (UserManagementForm.isError (fst (fst outcome)))
  /\ (userToEdit = None -> UserManagementForm.password f = "" -> snd outcome = m)
  /\ (forall user, userToEdit = Some user ->
        trace (snd outcome)
        = trace m ++ UserManagementForm.update_request user f
                     :: (if snd (fst outcome) then [ProfilesSelectAll] else []))
  /\ (userToEdit = None -> UserManagementForm.password f <> "" ->
      UserManagementForm.role f <> parent \/ UserManagementForm.childId f = "" ->
      trace (snd outcome)
      = trace m ++ UserManagementForm.add_request f
                   :: (if snd (fst outcome) then [ProfilesSelectAll] else [])).
Proof.
  cbv zeta. unfold UserManagementForm.handleSubmit, UserManagementForm.update_request,
    UserManagementForm.add_request.
  split; [|split; [|split]].
  - destruct userToEdit as [user|].
    + destruct (updateUser remote _ m) as [result m']. cbn. rewrite negb_involutive. reflexivity.
    + destruct (decide (UserManagementForm.password f = "")); [reflexivity|].
      destruct (addUser remote _ m) as [result m']. cbn. rewrite negb_involutive. reflexivity.
  - intros -> Hpw.
    destruct (decide (UserManagementForm.password f = "")); [reflexivity | contradiction].
  - intros user ->. unfold UserManagementForm.edited.
    Controller.unfold_ops. cbn.
    destruct (remote _ (world m)) as [[[]|e] w1]; cbn; [|reflexivity].
    destruct (remote ProfilesSelectAll w1) as [[rows|e] w2]; cbn;
      rewrite <- app_assoc; reflexivity.
  - intros -> Hpw Hnolink.
    destruct (decide (UserManagementForm.password f = "")) as [Hyes|_]; [contradiction|].
    unfold UserManagementForm.added, UserManagementForm.linkedChild.
    assert (Hskip : truthy (if decide (UserManagementForm.role f = parent)
                            then Some (UserManagementForm.childId f) else None) = None
                    \/ UserManagementForm.role f <> parent).
    { destruct Hnolink as [Hrole|Hchild]; [right; exact Hrole|].
      left. rewrite Hchild. destruct (decide _); reflexivity. }
    Controller.unfold_ops. cbn.
    destruct (remote _ (world m)) as [[[newId|]|e] w1]; cbn; [| |reflexivity].
    + destruct Hskip as [-> | Hrole].
      * destruct (UserManagementForm.role f); cbn;
          destruct (remote ProfilesSelectAll w1) as [[rows|e] w2]; cbn;
          rewrite <- app_assoc; reflexivity.
      * destruct (UserManagementForm.role f); try contradiction; cbn;
          destruct (remote ProfilesSelectAll w1) as [[rows|e] w2]; cbn;
          rewrite <- app_assoc; reflexivity.
    + destruct (remote ProfilesSelectAll w1) as [[rows|e] w2]; cbn;
        rewrite <- app_assoc; reflexivity.
Qed.

End WithRemote.

End FormFacts.

(** ** The quiz screen inside the application *)

Module FlowFacts.
Import AppContext QuizFlow.
Local Open Scope list_scope.

Section WithRemote.

Context {W : Type} (remote : forall q : Request, W -> Reply (Payload q) * W).

Lemma inserts_app (t1 t2 : list Request) : inserts (t1 ++ t2) = inserts t1 ++ inserts t2.
Proof. unfold inserts. apply omap_app. Qed.

(** While [currentUser] stays what the render of the answer saw, the
    delayed call with its captured callback is the [TimeoutFires] step of
    the flow. *)
Lemma delayed_call_same_user (fl : @Flow W) (now : Z) (r1 r2 : Q) :
  delayed_call remote (currentUser (app (controller fl))) fl now r1 r2
  = flow_step remote fl (OnScreen (QuizScreen.TimeoutFires now r1 r2)).
Proof.
  unfold delayed_call, flow_step. cbn [needs_screen andb]. f_equal.
  unfold finish_all.
  generalize (drop (length (QuizScreen.finished (quizScreen fl)))
                (QuizScreen.finished
                   (QuizScreen.step (quizScreen fl) (QuizScreen.TimeoutFires now r1 r2)))).
  intros handed.
  assert (Hgen : forall (m : Machine W) captured,
             currentUser (app m) = captured ->
             fold_left (fun m summary => snd (finishQuiz_callback remote captured summary m))
               handed m
             = fold_left (fun m summary => snd (finishQuiz remote summary m)) handed m).
  { induction handed as [|summary handed IH]; intros m captured Hcu; [reflexivity|].
    cbn [fold_left].
    assert (Hsame : finishQuiz remote summary m
                    = finishQuiz_callback remote captured summary m).
    { unfold finishQuiz, get, bind. cbn. rewrite Hcu. reflexivity. }
    rewrite Hsame. apply IH.
    rewrite <- Hcu at 2.
    exact (proj1 (Navigation.perform_keeps_identity remote (DoFinishQuiz captured summary) m I)). }
  apply Hgen. reflexivity.
Qed.

(** What a student's [finishQuiz] leaves behind. *)
Lemma finishQuiz_by_student (summary : QuizSummary) (m : Machine W) (user : User) :
  currentUser (app m) = Some user ->
  user_role user = student ->
  view (app (snd (finishQuiz remote summary m))) = results_view
  /\ quizResults (app (snd (finishQuiz remote summary m))) = Some summary
  /\ inserts (trace (snd (finishQuiz remote summary m)))
     = inserts (trace m) ++ [attempt_row user summary]
  /\ exists later,
       trace (snd (finishQuiz remote summary m))
       = trace m ++ ProgressInsert (attempt_row user summary) :: later.
Proof.
  intros Hcu Hst. unfold finishQuiz, get, bind at 1. cbn. rewrite Hcu. unfold finishQuiz_callback.
  destruct (decide (user_role user = student)) as [_|Hno]; [|contradiction].
  Controller.unfold_ops. cbn.
  destruct (remote (ProgressInsert (attempt_row user summary)) (world m)) as [[[]|e] w1]; cbn.
  - destruct (remote ProgressSelectAll w1) as [[rows|e] w2]; cbn.
    all: split; [reflexivity|]; split; [reflexivity|]; split;
      [rewrite !inserts_app; cbn; rewrite app_nil_r; reflexivity
      | eexists; rewrite <- app_assoc; reflexivity].
  - split; [reflexivity|]. split; [reflexivity|]. split;
      [rewrite inserts_app; reflexivity | eexists; reflexivity].
Qed.

(** The delayed call after the last answer, in the application. *)
Lemma pending_finish_fires (fl : @Flow W) (user : User) (qs : QuizSettings)
    (rs : list QuizResult) (now : Z) (r1 r2 : Q) :
  currentUser (app (controller fl)) = Some user ->
  user_role user = student ->
  QuizPhases.revealed qs QuizScreen.TOTAL_QUESTIONS rs (quizScreen fl) ->
  let fl' := flow_step remote fl (OnScreen (QuizScreen.TimeoutFires now r1 r2)) in
  view (app (controller fl')) = results_view
  /\ quizResults (app (controller fl')) = Some (QuizScreen.summarize qs rs)
  /\ inserts (trace (controller fl'))
     = inserts (trace (controller fl))
       ++ [attempt_row user (QuizScreen.summarize qs rs)]
  /\ QuizScreen.finished (quizScreen fl') = [QuizScreen.summarize qs rs].
Proof.
  intros Hcu Hst (Hqs & Hidx & _ & _ & _ & Hto & Hfin).
  destruct fl as [m sc]. cbn [controller quizScreen] in *.
  assert (Hstep : QuizScreen.finished (QuizScreen.step sc (QuizScreen.TimeoutFires now r1 r2))
                  = [QuizScreen.summarize qs rs]).
  { destruct sc as [qs0 st0 to0 fin0]. cbn in Hqs, Hto, Hfin. subst. reflexivity. }
  unfold flow_step. cbn [needs_screen andb controller quizScreen].
  rewrite Hstep, Hfin. cbn [length drop finish_all fold_left].
  destruct (finishQuiz_by_student (QuizScreen.summarize qs rs) m user Hcu Hst)
    as (Hv & Hq & Hins & _).
  repeat split; assumption.
Qed.

(** Leaving the quiz screen does not cancel the delayed call.  When the
    last question has been answered and the student exits before the
    delayed call runs, the call still hands the summary to [finishQuiz]:
    the attempt is inserted and [view] moves to the results screen. *)
Theorem exit_after_last_answer_still_finishes (fl : @Flow W) (user : User)
    (qs : QuizSettings) (rs : list QuizResult) (confirmed : bool) (now : Z) (r1 r2 : Q) :
  currentUser (app (controller fl)) = Some user ->
  user_role user = student ->
  QuizPhases.revealed qs QuizScreen.TOTAL_QUESTIONS rs (quizScreen fl) ->
  let fl' := flow_run remote fl
               [ExitQuiz confirmed; OnScreen (QuizScreen.TimeoutFires now r1 r2)] in
  view (app (controller fl')) = results_view
  /\ quizResults (app (controller fl')) = Some (QuizScreen.summarize qs rs)
  /\ inserts (trace (controller fl'))
     = inserts (trace (controller fl))
       ++ [attempt_row user (QuizScreen.summarize qs rs)].
Proof.
  intros Hcu Hst Hrev. unfold flow_run. cbn [fold_left].
  set (fl1 := flow_step remote fl (ExitQuiz confirmed)).
  assert (H1 : currentUser (app (controller fl1)) = Some user
               /\ trace (controller fl1) = trace (controller fl)
               /\ quizScreen fl1 = quizScreen fl).
  { unfold fl1, flow_step. destruct (quiz_shown fl && confirmed); cbn; auto. }
  destruct H1 as (Hcu1 & Htr1 & Hsc1).
  rewrite <- Hsc1 in Hrev.
  destruct (pending_finish_fires fl1 user qs rs now r1 r2 Hcu1 Hst Hrev) as (Hv & Hq & Hins & _).
  rewrite Htr1 in Hins. repeat split; assumption.
Qed.

(** The screen's record of handed-over summaries only grows. *)
Lemma finished_grows (sc : QuizScreen.Screen) (e : QuizScreen.Event) :
  exists more, QuizScreen.finished (QuizScreen.step sc e) = QuizScreen.finished sc ++ more.
Proof.
  assert (Hnext : forall c now r1 r2 sc0,
            exists more, QuizScreen.finished (QuizScreen.nextQuestion c now r1 r2 sc0)
                         = QuizScreen.finished sc0 ++ more).
  { intros c now r1 r2 sc0. unfold QuizScreen.nextQuestion.
    destruct (QuizScreen.nq_quizSettings c); [|exists []; rewrite app_nil_r; reflexivity].
    destruct (_ >=? _); cbn; [eexists; reflexivity | exists []; rewrite app_nil_r; reflexivity]. }
  destruct e as [now r1 r2|v|t|t|now r1 r2]; cbn [QuizScreen.step].
  - apply Hnext.
  - destruct (QuizScreen.isAnswered _); exists []; rewrite app_nil_r; reflexivity.
  - unfold QuizScreen.handleAnswerSubmit, QuizScreen.render_handleAnswerSubmit.
    cbn [QuizScreen.has_isAnswered QuizScreen.has_question].
    destruct (QuizScreen.isAnswered (QuizScreen.state sc)),
             (QuizScreen.question (QuizScreen.state sc));
      exists []; rewrite app_nil_r; reflexivity.
  - unfold QuizScreen.handleAnswerSubmit, QuizScreen.render_handleAnswerSubmit.
    cbn [QuizScreen.has_isAnswered QuizScreen.has_question].
    destruct (QuizScreen.isAnswered (QuizScreen.state sc)),
             (QuizScreen.question (QuizScreen.state sc));
      exists []; rewrite app_nil_r; reflexivity.
  - destruct (QuizScreen.timeouts sc) as [|c rest]; [exists []; rewrite app_nil_r; reflexivity|].
    destruct (Hnext c now r1 r2
                {| QuizScreen.quizSettings := QuizScreen.quizSettings sc;
                   QuizScreen.state := QuizScreen.state sc;
                   QuizScreen.timeouts := rest;
                   QuizScreen.finished := QuizScreen.finished sc |}) as [more Hmore].
    exists more. exact Hmore.
Qed.

Lemma finished_empty_before (es : list QuizScreen.Event) :
  forall sc, QuizScreen.finished (QuizScreen.run sc es) = [] -> QuizScreen.finished sc = [].
Proof.
  induction es as [|e es IH]; intros sc H; [exact H|].
  unfold QuizScreen.run in *. cbn [fold_left] in H. apply IH in H.
  destruct (finished_grows sc e) as [more Hmore]. rewrite Hmore in H.
  apply app_eq_nil in H. tauto.
Qed.

(** While the quiz is shown and nothing is handed over, the application
    only moves the screen. *)
Lemma flow_tracks_screen (es : list QuizScreen.Event) :
  forall (m : Machine W) (sc : QuizScreen.Screen),
    quiz_shown {| controller := m; quizScreen := sc |} = true ->
    QuizScreen.finished (QuizScreen.run sc es) = [] ->
    flow_run remote {| controller := m; quizScreen := sc |} (map OnScreen es)
    = {| controller := m; quizScreen := QuizScreen.run sc es |}.
Proof.
  induction es as [|e es IH]; intros m sc Hshown Hfin; [reflexivity|].
  pose proof (finished_empty_before (e :: es) sc Hfin) as H0.
  assert (H1 : QuizScreen.finished (QuizScreen.step sc e) = [])
    by (apply (finished_empty_before es); exact Hfin).
  unfold flow_run, QuizScreen.run in *. cbn [map fold_left].
  assert (Hstep : flow_step remote {| controller := m; quizScreen := sc |} (OnScreen e)
                  = {| controller := m; quizScreen := QuizScreen.step sc e |}).
  { unfold flow_step. rewrite Hshown. rewrite andb_false_r.
    cbn [quizScreen controller]. rewrite H0, H1. reflexivity. }
  rewrite Hstep. apply IH; [exact Hshown | exact Hfin].
Qed.

Lemma answer_reveals (qs : QuizSettings) (k : Z) (rs : list QuizResult)
    (sc : QuizScreen.Screen) (rd : QuizScreen.Round) :
  QuizScreen.awaiting qs k rs sc ->
  QuizPhases.revealed qs k rs
    (QuizScreen.run sc
       [QuizScreen.Change (QuizScreen.typed rd);
        if QuizScreen.submitted rd then QuizScreen.SubmitForm (QuizScreen.answered_at rd)
        else QuizScreen.TimeUp (QuizScreen.answered_at rd)]).
Proof.
  intros (Hqs & Hidx & Hrs & Hans & [q1 Hq] & Hto & Hfin).
  destruct sc as [qs0 [q0 idx0 ua0 rs0 ans0 fb0 st0] to0 fin0]. cbn in *. subst.
  destruct (QuizScreen.submitted rd); cbn; repeat split; eauto.
Qed.

(** A session of ten rounds taken by a signed-in student, inside the
    application: the screen goes through the same states as on its own,
    and the one summary it hands over is persisted as exactly one attempt
    row, after which the results screen is shown with that summary. *)
Theorem completed_session_is_persisted_once (m : Machine W) (user : User)
    (qs : QuizSettings) (t0 now : Z) (r1 r2 : Q) (rounds : list QuizScreen.Round) :
  currentUser (app m) = Some user ->
  user_role user = student ->
  isLoading (app m) = false ->
  length rounds = 10%nat ->
  let fl := flow_run remote (enter qs t0 m)
              (map OnScreen (QuizScreen.MountEffect now r1 r2
                             :: concat (map QuizScreen.round_events rounds))) in
  exists summary,
    QuizScreen.finished (QuizScreen.session qs t0 now r1 r2 rounds) = [summary]
    /\ QuizScreen.finished (quizScreen fl) = [summary]
    /\ inserts (trace (controller fl)) = inserts (trace m) ++ [attempt_row user summary]
    /\ view (app (controller fl)) = results_view
    /\ quizResults (app (controller fl)) = Some summary.
Proof.
  intros Hcu Hst Hload Hlen.
  induction rounds as [|rd first _] using rev_ind; [discriminate Hlen|].
  rewrite length_app in Hlen. cbn in Hlen.
  assert (Hfirst : length first = 9%nat) by lia.
  set (sc1 := QuizScreen.step (QuizScreen.mount (Some qs) t0) (QuizScreen.MountEffect now r1 r2)).
  destruct (Session.rounds_continue qs first 1 [] sc1
              (Session.mount_effect_awaits qs t0 now r1 r2))
    as (rs & Hrs & Haw); [rewrite Hfirst; unfold QuizScreen.TOTAL_QUESTIONS; lia|].
  rewrite Hfirst in Haw. cbn [app] in Haw. change (1 + Z.of_nat 9) with QuizScreen.TOTAL_QUESTIONS in Haw.
  pose proof (answer_reveals qs _ rs _ rd Haw) as Hrev.
  set (before := QuizScreen.MountEffect now r1 r2
                 :: concat (map QuizScreen.round_events first)
                 ++ [QuizScreen.Change (QuizScreen.typed rd);
                     if QuizScreen.submitted rd
                     then QuizScreen.SubmitForm (QuizScreen.answered_at rd)
                     else QuizScreen.TimeUp (QuizScreen.answered_at rd)]).
  set (last_call := QuizScreen.TimeoutFires (QuizScreen.continued_at rd)
                      (QuizScreen.draw1 rd) (QuizScreen.draw2 rd)).
  assert (Hevents : QuizScreen.MountEffect now r1 r2
                    :: concat (map QuizScreen.round_events (first ++ [rd]))
                    = before ++ [last_call]).
  { unfold before, last_call. rewrite map_app, concat_app. cbn [map concat].
    rewrite app_nil_r. unfold QuizScreen.round_events at 2.
    rewrite <- app_comm_cons. f_equal. rewrite <- app_assoc. reflexivity. }
  assert (Hbefore : QuizScreen.run (QuizScreen.mount (Some qs) t0) before
                    = QuizScreen.run (QuizScreen.run sc1 (concat (map QuizScreen.round_events first)))
                        [QuizScreen.Change (QuizScreen.typed rd);
                         if QuizScreen.submitted rd
                         then QuizScreen.SubmitForm (QuizScreen.answered_at rd)
                         else QuizScreen.TimeUp (QuizScreen.answered_at rd)]).
  { unfold before, QuizScreen.run. cbn [fold_left]. rewrite fold_left_app. reflexivity. }
  rewrite <- Hbefore in Hrev.
  assert (Hshown : quiz_shown (enter qs t0 m) = true).
  { unfold quiz_shown, enter, App.AppContent, App.renderContent. cbn.
    rewrite Hload, Hcu. reflexivity. }
  assert (Htrack : flow_run remote (enter qs t0 m) (map OnScreen before)
                   = {| controller := snd (startQuiz qs m);
                        quizScreen := QuizScreen.run (QuizScreen.mount (Some qs) t0) before |}).
  { apply flow_tracks_screen; [exact Hshown|].
    destruct Hrev as (_ & _ & _ & _ & _ & _ & Hfin). exact Hfin. }
  cbv zeta. rewrite Hevents, map_app. unfold flow_run in *. rewrite fold_left_app, Htrack.
  cbn [map fold_left].
  destruct (pending_finish_fires
              {| controller := snd (startQuiz qs m);
                 quizScreen := QuizScreen.run (QuizScreen.mount (Some qs) t0) before |}
              user qs rs (QuizScreen.continued_at rd) (QuizScreen.draw1 rd) (QuizScreen.draw2 rd)
              Hcu Hst Hrev) as (Hv & Hq & Hins & Hfin).
  exists (QuizScreen.summarize qs rs).
  split; [|split; [exact Hfin | split; [exact Hins | split; [exact Hv | exact Hq]]]].
  unfold QuizScreen.session. rewrite Hevents. unfold QuizScreen.run in *.
  rewrite fold_left_app. cbn [fold_left].
  destruct Hrev as (Hqs & Hidx & _ & _ & _ & Hto & Hfin0).
  destruct (fold_left QuizScreen.step before (QuizScreen.mount (Some qs) t0))
    as [qs0 st0 to0 fin0].
  cbn in Hqs, Hto, Hfin0. subst. reflexivity.
Qed.

End WithRemote.

End FlowFacts.

(** ** The results screen *)

Module ResultsFacts.
Local Open Scope list_scope.

(** The results screen counts the correct answers of the summary it is
    given itself.  For a summary built by the quiz screen the percentage
    on display is ten times that count, whatever the number of results,
    and the count of incorrect answers is never negative. *)
Theorem results_screen_counts_agree (qs : QuizSettings) (rs : list QuizResult) :
  (score (QuizScreen.summarize qs rs)
   == 10 * inject_Z (Z.of_nat (ResultsScreen.correctAnswers (QuizScreen.summarize qs rs))))%Q
  /\ 0 <= ResultsScreen.incorrectAnswers (QuizScreen.summarize qs rs).
Proof.
  unfold ResultsScreen.incorrectAnswers, ResultsScreen.correctAnswers, QuizScreen.summarize.
  cbn [results score].
  pose proof (List.filter_length_le isCorrect rs) as Hle.
  split; [|lia].
  unfold QuizScreen.TOTAL_QUESTIONS, Qeq, Qdiv, Qmult, Qinv, inject_Z. cbn. lia.
Qed.

End ResultsFacts.

(** ** The further theorems at concrete inputs *)

Module MoreInstances.
Import AppContext InMemory Scenarios.
Local Open Scope list_scope.

(** Two attempts at different stages, fetched in either order. *)
Lemma normalize_order_irrelevant_witness :
  stage_score (normalize [first_try; second_stage]) "student-1" "addition" "stage2"
  = stage_score (normalize [second_stage; first_try]) "student-1" "addition" "stage2".
Proof.
  apply (NormalizerFacts.normalize_order_irrelevant [first_try; second_stage]
           [second_stage; first_try]).
  - cbn. apply NoDup_cons. split; [|apply NoDup_singleton].
    intros Hin. apply list_elem_of_singleton in Hin. discriminate Hin.
  - apply Permutation_swap.
Defined.

(** Sam's second quiz replaces the stage-1 score. *)
Lemma finishQuiz_shows_new_score_witness :
  let m := {| app := sam_with_progress; world := family; trace := []; console := [] |} in
  stage_score (progressData (app (snd (finishQuiz serve second_summary m))))
    "student-1" "addition" "stage1"
  = Some 90%Q.
Proof.
  intros m.
  apply (NormalizerFacts.finishQuiz_shows_new_score serve second_summary m
           (userWithEmail (session_of sam) sam) [first_try; second_stage; retry] []
           (snd (serve (ProgressInsert (attempt_row (userWithEmail (session_of sam) sam)
                                                    second_summary)) family))
           (snd (serve (ProgressInsert (attempt_row (userWithEmail (session_of sam) sam)
                                                    second_summary)) family))).
  - reflexivity.
  - reflexivity.
  - reflexivity.
  - reflexivity.
  - intros r Hin. inversion Hin.
Defined.

Lemma fallback_screens_unreachable_witness :
  let s := app (QuizFlow.perform_all serve a_visit (QuizFlow.fresh school)) in
  view s = quiz /\ is_Some (quizSettings s) /\ App.renderContent s = App.ShowQuiz.
Proof.
  intros s.
  assert (Hui : Forall QuizFlow.ui_action a_visit).
  { repeat constructor; cbn; tauto. }
  destruct (Navigation.fallback_screens_unreachable serve school a_visit Hui)
    as (Hq & _ & Hrender).
  fold s in Hq, Hrender.
  assert (Hview : view s = quiz) by reflexivity.
  split; [exact Hview|]. split; [exact (Hq Hview)|].
  apply Hrender; [eexists; reflexivity | exact Hview].
Defined.

Lemma signed_out_sees_login_or_signUp_witness :
  let s := app (QuizFlow.perform_all serve a_stroll
                  (snd (onAuthStateChange serve None after_first_quiz))) in
  App.AppContent s = (false, App.ShowLogin) \/ App.AppContent s = (false, App.ShowSignUp).
Proof.
  apply (Navigation.signed_out_sees_login_or_signUp serve after_first_quiz a_stroll).
  repeat constructor.
Defined.

(** Pia's profile row links Sam, whose rows are in the store; her
    dashboard finds no child all the same. *)
Example parent_with_linked_child_sees_no_child :
  let m := QuizFlow.perform_all serve [AuthEvent (Some (session_of pia))]
             (QuizFlow.fresh family) in
  user_child_id <$> currentUser (app m) = Some (Some "student-1")
  /\ Dashboards.ParentDashboard (app m) = Dashboards.NoChildLinked.
Proof. split; reflexivity. Qed.

Lemma averages_between_0_and_100_witness :
  (0 <= Dashboards.averageScore mixed_scores)%Q
  /\ (Dashboards.averageScore mixed_scores < Dashboards.teacherAverageScore mixed_scores)%Q
  /\ (Dashboards.teacherAverageScore mixed_scores <= 100)%Q.
Proof.
  assert (Hb : forall k v, mixed_scores !! k = Some v -> (0 <= v)%Q /\ (v <= 100)%Q).
  { intros k v Hkv. unfold mixed_scores in Hkv.
    apply lookup_insert_Some in Hkv as [[_ <-]|[_ Hkv]]; [split; discriminate|].
    apply lookup_insert_Some in Hkv as [[_ <-]|[_ Hkv]]; [split; discriminate|].
    rewrite lookup_empty in Hkv. discriminate Hkv. }
  destruct (DashboardFacts.averages_between_0_and_100 mixed_scores Hb)
    as (H0 & _ & H100 & Hiff).
  split; [exact H0|]. split; [|exact H100].
  apply Hiff. split.
  - exists "stage1", 0%Q. split; [vm_compute; reflexivity | reflexivity].
  - exists "stage2", 80%Q. split; [vm_compute; reflexivity | reflexivity].
Defined.

(** The two averages differ on these scores: 40 for the student, 80 for
    the teacher. *)
Example averages_differ :
  (Dashboards.averageScore mixed_scores == 40)%Q
  /\ (Dashboards.teacherAverageScore mixed_scores == 80)%Q.
Proof. split; vm_compute; reflexivity. Qed.

Lemma student_dashboard_reflects_rows_witness :
  Dashboards.StudentDashboard sam_with_progress <> Dashboards.NoQuizzesYet
  /\ Dashboards.operationCard
       (Dashboards.progressOf (progressData sam_with_progress) "student-1") subtraction
     = Dashboards.NoAttemptsYet "Subtraction".
Proof.
  destruct (DashboardFacts.student_dashboard_reflects_rows sam_with_progress
              (userWithEmail (session_of sam) sam) [first_try; second_stage; retry]
              eq_refl eq_refl) as [Hnone Hcard].
  split.
  - intros H. apply Hnone in H. apply H. exists retry. split; [|reflexivity].
    apply elem_of_cons; right. apply elem_of_cons; right. apply elem_of_cons; left. reflexivity.
  - apply (Hcard subtraction). intros (r & Hin & _ & Hop).
    apply elem_of_cons in Hin as [->|Hin]; [discriminate Hop|].
    apply elem_of_cons in Hin as [->|Hin]; [discriminate Hop|].
    apply elem_of_cons in Hin as [->|Hin]; [discriminate Hop|].
    inversion Hin.
Defined.


Lemma chosen_settings_are_offered_witness :
  let qs := SelectQuizScreen.chosen
              [SelectQuizScreen.ClickStage 2; SelectQuizScreen.ClickOperation 1;
               SelectQuizScreen.ClickStage 2; SelectQuizScreen.ClickTimer 2] in
  operation qs = subtraction /\ 1 <= stage qs <= 2 /\ 0 < timer qs.
Proof.
  intros qs.
  destruct (SelectionFacts.chosen_settings_are_offered
              [SelectQuizScreen.ClickStage 2; SelectQuizScreen.ClickOperation 1;
               SelectQuizScreen.ClickStage 2; SelectQuizScreen.ClickTimer 2])
    as (Hstage & _ & Htimer).
  fold qs in Hstage, Htimer.
  split; [reflexivity|]. split; [exact Hstage | exact Htimer].
Defined.

Lemma handleSignUp_requests_witness :
  trace (snd (SignUpScreen.handleSignUp serve teacher_form_with_leftover_child (boot school)))
  = [SignUpScreen.signUp_request teacher_form_with_leftover_child]
  /\ trace (snd (SignUpScreen.handleSignUp serve parent_form (boot school)))
     = [SignUpScreen.signUp_request parent_form;
        ProfilesUpdateChild "pat@home.example" "student-1"].
Proof.
  destruct (SignUpScreen.password teacher_form_with_leftover_child) eqn:Hpw1;
    [discriminate Hpw1|].
  destruct (FormFacts.handleSignUp_requests serve teacher_form_with_leftover_child (boot school))
    as [_ Hteacher].
  destruct (FormFacts.handleSignUp_requests serve parent_form (boot school)) as [_ Hparent].
  split.
  - apply Hteacher; [intros [H _]; discriminate H | discriminate | discriminate].
  - eapply Hparent; [intros [_ H]; discriminate H | discriminate | reflexivity | reflexivity].
Defined.

Lemma handleSubmit_requests_witness :
  trace (snd (UserManagementForm.handleSubmit serve (Some (as_User tess)) edit_form
                (boot school)))
  = [ProfilesUpdate "teacher-1" "Tess" parent (Some ""); ProfilesSelectAll]
  /\ snd (UserManagementForm.handleSubmit serve None edit_form (boot school)) = boot school.
Proof.
  destruct (FormFacts.handleSubmit_requests serve (Some (as_User tess)) edit_form (boot school))
    as (_ & _ & Hedit & _).
  destruct (FormFacts.handleSubmit_requests serve None edit_form (boot school))
    as (_ & Hadd & _).
  split; [apply (Hedit (as_User tess) eq_refl) | apply Hadd; reflexivity].
Defined.

(** A list of [n + 1] elements is its first [n] followed by one more. *)
Lemma last_split {A} (l : list A) (n : nat) :
  length l = S n -> exists r, l = take n l ++ [r].
Proof.
  intros Hlen. pose proof (length_drop l n) as Hl. rewrite Hlen in Hl.
  destruct (drop n l) as [|r [|]] eqn:Hd; cbn in Hl; try lia.
  exists r. rewrite <- Hd. symmetry. apply take_drop.
Qed.

Lemma exit_after_last_answer_still_finishes_witness :
  let fl := QuizFlow.flow_run serve last_answered
              [QuizFlow.ExitQuiz true;
               QuizFlow.OnScreen (QuizScreen.TimeoutFires 39500 Samples.draw_a Samples.draw_b)] in
  view (app (QuizFlow.controller fl)) = results_view
  /\ QuizFlow.inserts (trace (QuizFlow.controller fl))
     = [attempt_row (userWithEmail (session_of sam) sam)
          (QuizScreen.summarize easy_sums first_nine)].
Proof.
  intros fl.
  assert (Hcu : currentUser (app (QuizFlow.controller last_answered))
                = Some (userWithEmail (session_of sam) sam)) by (vm_compute; reflexivity).
  assert (Hres : exists r, QuizScreen.results (QuizScreen.state (QuizFlow.quizScreen last_answered))
                           = first_nine ++ [r]).
  { apply (last_split _ 9). vm_compute. reflexivity. }
  assert (Hrev : QuizPhases.revealed easy_sums QuizScreen.TOTAL_QUESTIONS first_nine
                   (QuizFlow.quizScreen last_answered)).
  { split; [vm_compute; reflexivity|].
    split; [vm_compute; reflexivity|].
    split; [exact Hres|].
    split; [vm_compute; reflexivity|].
    split; [eexists; vm_compute; reflexivity|].
    split; vm_compute; reflexivity. }
  destruct (FlowFacts.exit_after_last_answer_still_finishes serve last_answered
              (userWithEmail (session_of sam) sam) easy_sums first_nine true 39500
              Samples.draw_a Samples.draw_b Hcu eq_refl Hrev) as (Hv & _ & Hins).
  split; [exact Hv | exact Hins].
Defined.

Lemma completed_session_is_persisted_once_witness :
  let rounds := map Samples.correct_round (seq 0 10) in
  let fl := QuizFlow.flow_run serve (QuizFlow.enter easy_sums 0 student_signed_in)
              (map QuizFlow.OnScreen
                 (QuizScreen.MountEffect 0 Samples.draw_a Samples.draw_b
                  :: concat (map QuizScreen.round_events rounds))) in
  exists summary,
    QuizScreen.finished Samples.all_correct_session = [summary]
    /\ QuizFlow.inserts (trace (QuizFlow.controller fl))
       = [attempt_row (userWithEmail (session_of sam) sam) summary]
    /\ view (app (QuizFlow.controller fl)) = results_view.
Proof.
  intros rounds fl.
  destruct (FlowFacts.completed_session_is_persisted_once serve student_signed_in
              (userWithEmail (session_of sam) sam) easy_sums 0 0 Samples.draw_a Samples.draw_b
              rounds eq_refl eq_refl eq_refl eq_refl) as (summary & Hsum & _ & Hins & Hv & _).
  exists summary. split; [exact Hsum|]. split; [exact Hins | exact Hv].
Defined.

End MoreInstances.
